(** * CoolPC MCP server: the in-memory query engine of [src/index.ts]

    A shallow embedding of the class [CoolPCMCPServer]: the catalog held in
    [this.productData] and the four tool handlers [searchProducts],
    [getProductByModel], [listCategories] and [getCategoryProducts].

    Modelling decisions.
    - A JavaScript string is a [string], a sequence of characters.
      [String.prototype.toLowerCase] belongs to the JavaScript engine, not to
      the repository: the handlers are modelled over any lower-casing
      function (class [Lowering]), and the general theorems hold for every
      one. The table that lowers [A]-[Z], which is what [toLowerCase] does on
      ASCII strings, runs the handlers on the ASCII samples.
    - A JavaScript number is an integer of [Z]: the handlers only compare
      numbers ([<], [>], [>=]), test them for truthiness and take array
      lengths and slices.
    - An optional argument of the argument bag is an [option]; [None] is
      [undefined].
    - A handler's answer is the object it hands to [JSON.stringify].
    - [this.productData] holds what [JSON.parse] handed back: an array of
      category objects, or a value that cannot be iterated, on which a
      [TypeError] is thrown in every handler. *)

From Stdlib Require Import List String Ascii ZArith Lia Bool.
From ExtLib Require Import Structures.Monad Structures.MonadState Data.Monads.StateMonad.
Import ListNotations.
Import MonadNotation.

Local Open Scope string_scope.
Local Open Scope list_scope.
Local Open Scope Z_scope.

(** ** JavaScript strings *)

Module JsString.

(** The one-character string made of a double quote. *)
Definition dquote : string := String (ascii_of_nat 34) EmptyString.

(** [s.toLowerCase()]: the lower-casing of the engine, a parameter of the model. *)
Class Lowering := toLowerCase : string -> string.

(** A space keeps the lower-casing of what stands before it apart from the
    lower-casing of what stands after it. *)
Definition separates_words (L : Lowering) : Prop :=
  forall s t : string,
    toLowerCase (s ++ " " ++ t)%string = (toLowerCase s ++ " " ++ toLowerCase t)%string.

Definition lower_ascii (c : ascii) : ascii :=
  let n := nat_of_ascii c in
  if (Nat.leb 65 n && Nat.leb n 90)%bool then ascii_of_nat (n + 32) else c.

(** [toLowerCase] on ASCII strings: the letters [A]-[Z] are lowered. *)
Fixpoint ascii_toLowerCase (s : string) : string :=
  match s with
  | EmptyString => EmptyString
  | String c s' => String (lower_ascii c) (ascii_toLowerCase s')
  end.

(** The lower-casing used to run the handlers on ASCII samples. *)
Definition ascii_lowering : Lowering := ascii_toLowerCase.

(** [s.includes(search)]: [search] occurs in [s] at some position. *)
Fixpoint includes (s search : string) : bool :=
  (String.prefix search s
   || match s with
      | EmptyString => false
      | String _ s' => includes s' search
      end)%bool.

(** [parts.join(sep)] *)
Definition join (parts : list string) (sep : string) : string :=
  String.concat sep parts.

(** Truthiness of a string: every string but the empty one. *)
Definition truthy (s : string) : bool :=
  match s with
  | EmptyString => false
  | String _ _ => true
  end.

End JsString.

Import JsString.

(** ** The data model (interfaces [ProductSpec], [Subcategory], [ProductCategory]) *)

Record ProductSpec := {
  index : string;
  group : option string;
  brand : string;
  model : string;
  specs : list string;
  price : Z;
  original_price : option Z;
  discount_amount : option Z;
  markers : list string;
  raw_text : string
}.

Record Subcategory := {
  name : string;
  products : list ProductSpec
}.

Record Stats := {
  total_items : Z;
  hot_items : Z;
  with_images : Z;
  with_discussions : Z;
  price_changes : Z;
  time_limited : Z
}.

Record ProductCategory := {
  category_id : string;
  category_name : string;
  summary : string;
  stats : Stats;
  subcategories : list Subcategory
}.

(** The value of [this.productData]. *)
Definition Catalog := list ProductCategory.

(** The guard [if (s)] on an optional string: [Some t] when [s] is the
    truthy string [t], [None] when it is [undefined] or empty. *)
Definition if_truthy (s : option string) : option string :=
  match s with
  | Some t => if truthy t then Some t else None
  | None => None
  end.

(** Truthiness of a number: every number but [0]. *)
Definition truthy_num (n : Z) : bool := negb (n =? 0).

(** ** [searchProducts] *)

Module Search.

(** The argument bag [{ keyword, category, min_price, max_price, limit }]. *)
Record Args := {
  keyword : string;
  category : option string;
  min_price : option Z;
  max_price : option Z;
  limit : option Z
}.

(** [limit = 10] in the destructuring pattern. *)
Definition limit_of (a : Args) : Z :=
  match limit a with
  | None => 10
  | Some l => l
  end.

(** An element of [results]: [{...product, category_name, subcategory_name}]. *)
Record Hit := {
  hit_product : ProductSpec;
  hit_category_name : string;
  hit_subcategory_name : string
}.

(** An element of the answer's [results]. *)
Record View := {
  v_brand : string;
  v_model : string;
  v_specs : list string;
  v_price : Z;
  v_original_price : option Z;
  v_discount_amount : option Z;
  v_category : string;
  v_subcategory : string;
  v_markers : list string
}.

Record Answer := {
  total_found : nat;
  results : list View
}.

Definition view (h : Hit) : View :=
  let p := hit_product h in
  {| v_brand := brand p;
     v_model := model p;
     v_specs := specs p;
     v_price := price p;
     v_original_price := original_price p;
     v_discount_amount := discount_amount p;
     v_category := hit_category_name h;
     v_subcategory := hit_subcategory_name h;
     v_markers := markers p |}.

Section WithLowering.
Context {L : Lowering}.

(** [`${brand} ${model} ${specs.join(" ")} ${raw_text}`.toLowerCase()] *)
Definition searchText (p : ProductSpec) : string :=
  toLowerCase
    (brand p ++ " " ++ model p ++ " " ++ join (specs p) " " ++ " " ++ raw_text p)%string.

(** The category guard: [true] when the loop goes on to the next category. *)
Definition skip_category (a : Args) (cat : ProductCategory) : bool :=
  match category a with
  | None => false
  | Some c =>
      truthy c && negb (includes (toLowerCase (category_name cat)) (toLowerCase c))
  end.

Definition keyword_ok (a : Args) (p : ProductSpec) : bool :=
  includes (searchText p) (toLowerCase (keyword a)).

(** [min_price && product.price < min_price] *)
Definition below_min (a : Args) (p : ProductSpec) : bool :=
  match min_price a with
  | None => false
  | Some m => truthy_num m && (price p <? m)
  end.

(** [max_price && product.price > max_price] *)
Definition above_max (a : Args) (p : ProductSpec) : bool :=
  match max_price a with
  | None => false
  | Some m => truthy_num m && (price p >? m)
  end.

(** [results.length >= limit] *)
Definition full (a : Args) (res : list Hit) : bool :=
  Z.of_nat (List.length res) >=? limit_of a.

Section Loops.
Variable a : Args.

(** [for (const product of subcat.products) ...] *)
Fixpoint product_loop (cat : ProductCategory) (subcat : Subcategory)
    (ps : list ProductSpec) (res : list Hit) : list Hit :=
  match ps with
  | [] => res
  | product :: rest =>
      if negb (keyword_ok a product) then product_loop cat subcat rest res
      else if below_min a product then product_loop cat subcat rest res
      else if above_max a product then product_loop cat subcat rest res
      else
        let res' :=
          res ++ [{| hit_product := product;
                     hit_category_name := category_name cat;
                     hit_subcategory_name := name subcat |}] in
        if full a res' then res' else product_loop cat subcat rest res'
  end.

(** [for (const subcat of cat.subcategories) ...] *)
Fixpoint subcategory_loop (cat : ProductCategory) (subs : list Subcategory)
    (res : list Hit) : list Hit :=
  match subs with
  | [] => res
  | subcat :: rest =>
      let res' := product_loop cat subcat (products subcat) res in
      if full a res' then res' else subcategory_loop cat rest res'
  end.

(** [for (const cat of this.productData) ...] *)
Fixpoint category_loop (cats : list ProductCategory) (res : list Hit) : list Hit :=
  match cats with
  | [] => res
  | cat :: rest =>
      if skip_category a cat then category_loop rest res
      else
        let res' := subcategory_loop cat (subcategories cat) res in
        if full a res' then res' else category_loop rest res'
  end.
End Loops.

Definition searchProducts (productData : Catalog) (a : Args) : Answer :=
  let res := category_loop a productData [] in
  {| total_found := List.length res;
     results := map view res |}.

End WithLowering.

End Search.

(** ** [getProductByModel] *)

Module ByModel.

(** The [product] object of a hit. *)
Record Detail := {
  d_brand : string;
  d_model : string;
  d_specs : list string;
  d_price : Z;
  d_original_price : option Z;
  d_discount_amount : option Z;
  d_category : string;
  d_subcategory : string;
  d_markers : list string;
  d_raw_text : string
}.

(** [{found: true, product}] or [{found: false, message}]. *)
Inductive Answer :=
| Found (product : Detail)
| NotFound (message : string).

Definition found (r : Answer) : bool :=
  match r with
  | Found _ => true
  | NotFound _ => false
  end.

Definition detail (cat : ProductCategory) (subcat : Subcategory)
    (product : ProductSpec) : Detail :=
  {| d_brand := brand product;
     d_model := model product;
     d_specs := specs product;
     d_price := price product;
     d_original_price := original_price product;
     d_discount_amount := discount_amount product;
     d_category := category_name cat;
     d_subcategory := name subcat;
     d_markers := markers product;
     d_raw_text := raw_text product |}.

Section WithLowering.
Context {L : Lowering}.

(** [product.model.toLowerCase() === model.toLowerCase()] *)
Definition same_model (m : string) (product : ProductSpec) : bool :=
  (toLowerCase (model product) =? toLowerCase m)%string.

(** [`Product with model "${model}" not found`] *)
Definition not_found_message (m : string) : string :=
  ("Product with model " ++ dquote ++ m ++ dquote ++ " not found")%string.

Section Loops.
Variable m : string.

(** The three loops; [Some] is the [return] inside the innermost one. *)
Fixpoint product_loop (cat : ProductCategory) (subcat : Subcategory)
    (ps : list ProductSpec) : option Answer :=
  match ps with
  | [] => None
  | product :: rest =>
      if same_model m product then Some (Found (detail cat subcat product))
      else product_loop cat subcat rest
  end.

Fixpoint subcategory_loop (cat : ProductCategory) (subs : list Subcategory)
    : option Answer :=
  match subs with
  | [] => None
  | subcat :: rest =>
      match product_loop cat subcat (products subcat) with
      | Some r => Some r
      | None => subcategory_loop cat rest
      end
  end.

Fixpoint category_loop (cats : list ProductCategory) : option Answer :=
  match cats with
  | [] => None
  | cat :: rest =>
      match subcategory_loop cat (subcategories cat) with
      | Some r => Some r
      | None => category_loop rest
      end
  end.
End Loops.

Definition getProductByModel (productData : Catalog) (m : string) : Answer :=
  match category_loop m productData with
  | Some r => r
  | None => NotFound (not_found_message m)
  end.

End WithLowering.

End ByModel.

(** ** [listCategories] *)

Module Categories.

Record SubcategoryInfo := {
  si_name : string;
  product_count : nat
}.

Record CategoryInfo := {
  ci_category_id : string;
  ci_category_name : string;
  ci_stats : Stats;
  ci_subcategories : list SubcategoryInfo
}.

Record Answer := {
  total_categories : nat;
  categories : list CategoryInfo
}.

Definition listCategories (productData : Catalog) : Answer :=
  let categories :=
    map (fun cat =>
           {| ci_category_id := category_id cat;
              ci_category_name := category_name cat;
              ci_stats := stats cat;
              ci_subcategories :=
                map (fun subcat =>
                       {| si_name := name subcat;
                          product_count := List.length (products subcat) |})
                    (subcategories cat) |})
        productData in
  {| total_categories := List.length categories;
     categories := categories |}.

End Categories.

(** ** [getCategoryProducts] *)

Module CategoryProducts.

(** The argument bag [{ category_id, subcategory_name, limit }]. *)
Record Args := {
  arg_category_id : string;
  subcategory_name : option string;
  limit : option Z
}.

(** [limit = 20] in the destructuring pattern. *)
Definition limit_of (a : Args) : Z :=
  match limit a with
  | None => 20
  | Some l => l
  end.

(** An element of [allProducts]: [{...p, subcategory}]. *)
Record Tagged := {
  t_product : ProductSpec;
  t_subcategory : string
}.

Record View := {
  v_brand : string;
  v_model : string;
  v_specs : list string;
  v_price : Z;
  v_original_price : option Z;
  v_discount_amount : option Z;
  v_subcategory : string;
  v_markers : list string
}.

Record Listing := {
  l_category_name : string;
  subcategory_filter : option string;
  total_products : nat;
  showing : nat;
  l_products : list View
}.

(** [{found: false, message}] or the listing. *)
Inductive Answer :=
| NotFound (message : string)
| Listed (l : Listing).

Definition view (t : Tagged) : View :=
  let p := t_product t in
  {| v_brand := brand p;
     v_model := model p;
     v_specs := specs p;
     v_price := price p;
     v_original_price := original_price p;
     v_discount_amount := discount_amount p;
     v_subcategory := t_subcategory t;
     v_markers := markers p |}.

(** [subcat.products.map(p => ({...p, subcategory: subcat.name}))] *)
Definition tag_all (subcat : Subcategory) : list Tagged :=
  map (fun p => {| t_product := p; t_subcategory := name subcat |}) (products subcat).

(** [arr.slice(0, end)]: a negative [end] counts from the end of the array. *)
Definition slice0 {A : Type} (arr : list A) (end_ : Z) : list A :=
  let len := Z.of_nat (List.length arr) in
  let final := if end_ <? 0 then Z.max (len + end_) 0 else Z.min end_ len in
  firstn (Z.to_nat final) arr.

(** [for (const subcat of category.subcategories) allProducts.push(...)] *)
Fixpoint push_all (subs : list Subcategory) (allProducts : list Tagged) : list Tagged :=
  match subs with
  | [] => allProducts
  | subcat :: rest => push_all rest (allProducts ++ tag_all subcat)
  end.

(** [`Category with ID "${category_id}" not found`] *)
Definition category_not_found (id : string) : string :=
  ("Category with ID " ++ dquote ++ id ++ dquote ++ " not found")%string.

(** [`Subcategory "${subcategory_name}" not found in category "${category.category_name}"`] *)
Definition subcategory_not_found (sub cat_name : string) : string :=
  ("Subcategory " ++ dquote ++ sub ++ dquote ++ " not found in category "
     ++ dquote ++ cat_name ++ dquote)%string.

(** The tail of the handler, from [allProducts.slice(0, limit)] on. *)
Definition listing (a : Args) (category : ProductCategory)
    (subcategoryInfo : option string) (allProducts : list Tagged) : Answer :=
  let products := map view (slice0 allProducts (limit_of a)) in
  Listed {| l_category_name := category_name category;
            subcategory_filter := subcategoryInfo;
            total_products := List.length allProducts;
            showing := List.length products;
            l_products := products |}.

Section WithLowering.
Context {L : Lowering}.

Definition getCategoryProducts (productData : Catalog) (a : Args) : Answer :=
  match find (fun cat => (category_id cat =? arg_category_id a)%string) productData with
  | None => NotFound (category_not_found (arg_category_id a))
  | Some category =>
      match if_truthy (subcategory_name a) with
      | Some sn =>
          match find (fun sub => (toLowerCase (name sub) =? toLowerCase sn)%string)
                     (subcategories category) with
          | None => NotFound (subcategory_not_found sn (category_name category))
          | Some subcategory =>
              listing a category (Some (name subcategory)) (tag_all subcategory)
          end
      | None => listing a category None (push_all (subcategories category) [])
      end
  end.

End WithLowering.

End CategoryProducts.

(** ** The server: [this.productData], the constructor and the dispatcher *)

Module Server.

(** What [JSON.parse] hands back and [this.productData] then holds: an array
    of category objects, or a value that is neither an array nor a string
    ([null], a boolean, a number, an object such as [{}]), which cannot be
    iterated and has neither [map] nor [find]. A document that parses to a
    string or to an array of other values is not modelled. *)
Inductive Parsed :=
| Categories (data : Catalog)
| NotIterable.

(** The mutable part of a [CoolPCMCPServer]. *)
Record State := {
  productData : Parsed
}.

(** What a handler method does: it returns, or a [TypeError] is thrown in it. *)
Inductive Outcome (A : Type) :=
| Returned (x : A)
| TypeError.

Arguments Returned {A} x.
Arguments TypeError {A}.

Local Open Scope monad_scope.

Section Load.
(** [readFileSync(productPath, "utf-8")] and [JSON.parse(rawData)];
    [None] stands for a thrown exception. *)
Variable readFileSync : string -> option string.
Variable JSON_parse : string -> option Parsed.
Variable productPath : string.

(** [try { ... this.productData = JSON.parse(rawData) } catch { console.error(...) }] *)
Definition loadProductData : state State unit :=
  match readFileSync productPath with
  | None => ret tt
  | Some rawData =>
      match JSON_parse rawData with
      | None => ret tt
      | Some data => put {| productData := data |}
      end
  end.

(** The field initialiser [productData = []], then [this.loadProductData()]. *)
Definition constructor : State :=
  execState loadProductData {| productData := Categories [] |}.
End Load.

(** [request.params]: the tool name with its argument bag. *)
Inductive Request :=
| search_products (a : Search.Args)
| get_product_by_model (m : string)
| list_categories
| get_category_products (a : CategoryProducts.Args)
| other_tool (tool : string).

Inductive Response :=
| SearchAnswer (r : Search.Answer)
| ModelAnswer (r : ByModel.Answer)
| CategoriesAnswer (r : Categories.Answer)
| CategoryProductsAnswer (r : CategoryProducts.Answer)
| Thrown (message : string)
| ThrownTypeError.

Section WithLowering.
Context {L : Lowering}.

(** [for (const cat of this.productData)] throws on a value that is not iterable. *)
Definition searchProducts (a : Search.Args) : state State (Outcome Search.Answer) :=
  this <- get ;;
  match productData this with
  | Categories data => ret (Returned (Search.searchProducts data a))
  | NotIterable => ret TypeError
  end.

Definition getProductByModel (m : string) : state State (Outcome ByModel.Answer) :=
  this <- get ;;
  match productData this with
  | Categories data => ret (Returned (ByModel.getProductByModel data m))
  | NotIterable => ret TypeError
  end.

(** [this.productData.map(...)] throws on a value without [map]. *)
Definition listCategories : state State (Outcome Categories.Answer) :=
  this <- get ;;
  match productData this with
  | Categories data => ret (Returned (Categories.listCategories data))
  | NotIterable => ret TypeError
  end.

(** [this.productData.find(...)] throws on a value without [find]. *)
Definition getCategoryProducts (a : CategoryProducts.Args)
    : state State (Outcome CategoryProducts.Answer) :=
  this <- get ;;
  match productData this with
  | Categories data => ret (Returned (CategoryProducts.getCategoryProducts data a))
  | NotIterable => ret TypeError
  end.

(** What the call handler hands on: the method's answer, or its exception. *)
Definition respond {A : Type} (wrap : A -> Response) (r : Outcome A) : Response :=
  match r with
  | Returned x => wrap x
  | TypeError => ThrownTypeError
  end.

(** The [CallToolRequestSchema] handler. *)
Definition callTool (request : Request) : state State Response :=
  match request with
  | search_products a => r <- searchProducts a ;; ret (respond SearchAnswer r)
  | get_product_by_model m => r <- getProductByModel m ;; ret (respond ModelAnswer r)
  | list_categories => r <- listCategories ;; ret (respond CategoriesAnswer r)
  | get_category_products a =>
      r <- getCategoryProducts a ;; ret (respond CategoryProductsAnswer r)
  | other_tool tool => ret (Thrown ("Unknown tool: " ++ tool)%string)
  end.

(** A session: the requests served one after the other, with their responses. *)
Fixpoint serve (requests : list Request) : state State (list Response) :=
  match requests with
  | [] => ret []
  | request :: rest =>
      r <- callTool request ;;
      rs <- serve rest ;;
      ret (r :: rs)
  end.

End WithLowering.

End Server.

(** ** The advertised tools and the [switch] of the call handler *)

Module Tools.

(** A property of an [inputSchema]: its key, its [type], its [description]. *)
Record Property := {
  key : string;
  type : string;
  prop_description : string
}.

(** An element of the [tools] array of the [ListToolsRequestSchema] handler;
    [required] is [None] where the schema has no such key. *)
Record Tool := {
  tool_name : string;
  description : string;
  properties : list Property;
  required : option (list string)
}.

Definition tools : list Tool :=
  [ {| tool_name := "search_products";
       description :=
         "Search for computer components by keyword, brand, or specifications";
       properties :=
         [ {| key := "keyword"; type := "string";
              prop_description := "Keyword to search for (brand, model, specs, etc.)" |};
           {| key := "category"; type := "string";
              prop_description := "Category to filter by (optional)" |};
           {| key := "min_price"; type := "number";
              prop_description := "Minimum price filter (optional)" |};
           {| key := "max_price"; type := "number";
              prop_description := "Maximum price filter (optional)" |};
           {| key := "limit"; type := "number";
              prop_description := "Maximum number of results to return (default: 10)" |} ];
       required := Some ["keyword"] |};
    {| tool_name := "get_product_by_model";
       description :=
         "Get detailed information about a specific product by model number";
       properties :=
         [ {| key := "model"; type := "string";
              prop_description := "Exact model number to search for" |} ];
       required := Some ["model"] |};
    {| tool_name := "list_categories";
       description := "List all available product categories";
       properties := [];
       required := None |};
    {| tool_name := "get_category_products";
       description := "Get all products in a specific category or subcategory";
       properties :=
         [ {| key := "category_id"; type := "string";
              prop_description := "Category ID to get products from" |};
           {| key := "subcategory_name"; type := "string";
              prop_description := "Subcategory name to filter by (optional)" |};
           {| key := "limit"; type := "number";
              prop_description := "Maximum number of results to return (default: 20)" |} ];
       required := Some ["category_id"] |} ].

(** The method a [case] of the [switch (name)] calls. *)
Inductive Method :=
| searchProducts
| getProductByModel
| listCategories
| getCategoryProducts.

(** [switch (name) { case ...: ...; default: throw new Error(...) }]:
    the method called, or the message of the error thrown. *)
Definition switch (name : string) : string + Method :=
  if (name =? "search_products")%string then inr searchProducts
  else if (name =? "get_product_by_model")%string then inr getProductByModel
  else if (name =? "list_categories")%string then inr listCategories
  else if (name =? "get_category_products")%string then inr getCategoryProducts
  else inl ("Unknown tool: " ++ name)%string.

End Tools.

(** ** Reference definitions used by the statements *)

(** Catalog traversal order: category, then subcategory, then product, all in
    stored order. *)
Definition catalog_order (c : Catalog)
    : list (ProductCategory * Subcategory * ProductSpec) :=
  flat_map
    (fun cat =>
       flat_map (fun sub => map (fun p => (cat, sub, p)) (products sub))
                (subcategories cat))
    c.

(** [keyword] occurs in [text] when both are lower-cased. *)
Definition occurs_ci {L : Lowering} (keyword text : string) : bool :=
  includes (toLowerCase text) (toLowerCase keyword).

(** The text a search looks the keyword up in: the brand, the model, the
    specs joined by spaces and the raw text, with a space between them. *)
Definition combined_text (p : ProductSpec) : string :=
  (brand p ++ " " ++ model p ++ " " ++ String.concat " " (specs p) ++ " "
     ++ raw_text p)%string.

(** [part] is one of the pieces of a text that spaces keep apart. *)
Inductive piece (part : string) : string -> Prop :=
| piece_whole : piece part part
| piece_after (s t : string) : piece part t -> piece part (s ++ " " ++ t)%string
| piece_before (s t : string) : piece part s -> piece part (s ++ " " ++ t)%string.

(** What [searchProducts] is measured against: the products that pass its
    guards, listed in catalog order. *)
Module SearchSpec.
Import Search.

(** The three per-product guards of the innermost loop. *)
Definition product_ok {L : Lowering} (a : Args) (p : ProductSpec) : bool :=
  keyword_ok a p && negb (below_min a p) && negb (above_max a p).

(** The category guard and the per-product guards together. *)
Definition passes {L : Lowering} (a : Args)
    (t : ProductCategory * Subcategory * ProductSpec) : bool :=
  let '(cat, _, p) := t in negb (skip_category a cat) && product_ok a p.

(** The product's combined text contains the keyword, letter case ignored. *)
Definition text_matches {L : Lowering} (k : string)
    (t : ProductCategory * Subcategory * ProductSpec) : bool :=
  let '(_, _, p) := t in occurs_ci k (combined_text p).

Definition hit (t : ProductCategory * Subcategory * ProductSpec) : Hit :=
  let '(cat, sub, p) := t in
  {| hit_product := p;
     hit_category_name := category_name cat;
     hit_subcategory_name := name sub |}.

(** A product as a search result shows it: its own fields but [index],
    [group] and [raw_text], with the names of its category and subcategory. *)
Definition shown (t : ProductCategory * Subcategory * ProductSpec) : View :=
  let '(cat, sub, p) := t in
  {| v_brand := brand p;
     v_model := model p;
     v_specs := specs p;
     v_price := price p;
     v_original_price := original_price p;
     v_discount_amount := discount_amount p;
     v_category := category_name cat;
     v_subcategory := name sub;
     v_markers := markers p |}.

(** The call [search_products({keyword})]: no optional argument. *)
Definition keyword_only (k : string) : Args :=
  {| keyword := k; category := None; min_price := None; max_price := None;
     limit := None |}.
End SearchSpec.

(** The product's model and [m] are equal once both are lower-cased. *)
Definition is_model {L : Lowering} (m : string)
    (t : ProductCategory * Subcategory * ProductSpec) : bool :=
  let '(_, _, p) := t in (toLowerCase (model p) =? toLowerCase m)%string.

(** The hit answer for a product met in catalog order: its own fields but
    [index] and [group], [raw_text] included, with the names of its category
    and subcategory. *)
Definition found_at (t : ProductCategory * Subcategory * ProductSpec) : ByModel.Answer :=
  let '(cat, sub, p) := t in
  ByModel.Found
    {| ByModel.d_brand := brand p;
       ByModel.d_model := model p;
       ByModel.d_specs := specs p;
       ByModel.d_price := price p;
       ByModel.d_original_price := original_price p;
       ByModel.d_discount_amount := discount_amount p;
       ByModel.d_category := category_name cat;
       ByModel.d_subcategory := name sub;
       ByModel.d_markers := markers p;
       ByModel.d_raw_text := raw_text p |}.

(** The miss answer: [found: false] with the message that quotes the query. *)
Definition missing (m : string) : ByModel.Answer :=
  ByModel.NotFound ("Product with model " ++ dquote ++ m ++ dquote ++ " not found")%string.

(** A product as a category listing shows it, under its subcategory's name. *)
Definition listed (sub : Subcategory) (p : ProductSpec) : CategoryProducts.View :=
  {| CategoryProducts.v_brand := brand p;
     CategoryProducts.v_model := model p;
     CategoryProducts.v_specs := specs p;
     CategoryProducts.v_price := price p;
     CategoryProducts.v_original_price := original_price p;
     CategoryProducts.v_discount_amount := discount_amount p;
     CategoryProducts.v_subcategory := name sub;
     CategoryProducts.v_markers := markers p |}.

(** All the products of a category as listed, subcategory after subcategory,
    each in stored order. *)
Definition category_listing (cat : ProductCategory) : list CategoryProducts.View :=
  flat_map (fun sub => map (listed sub) (products sub)) (subcategories cat).

(** What a limit keeps of a list: its first [limit] elements, or, for a
    negative limit [-n], all but its last [n] elements. *)
Definition kept {A : Type} (limit : Z) (l : list A) : list A :=
  firstn (Z.to_nat (if limit <? 0 then Z.of_nat (List.length l) + limit else limit)) l.

(** All the products of a category, each tagged with its subcategory, in
    subcategory source order. *)
Definition all_tagged (cat : ProductCategory) : list CategoryProducts.Tagged :=
  flat_map CategoryProducts.tag_all (subcategories cat).

(** The sum of the subcategories' product counts. *)
Definition count_products (cat : ProductCategory) : nat :=
  list_sum (map (fun sub => List.length (products sub)) (subcategories cat)).

(** [x] is the first element of [l] that satisfies [P]. *)
Definition first_such {A : Type} (P : A -> Prop) (l : list A) (x : A) : Prop :=
  exists before after,
    l = before ++ x :: after /\ P x /\ forall y, In y before -> ~ P y.

(** ** Sample catalogs *)

Module Samples.

Definition no_stats : Stats :=
  {| total_items := 0; hot_items := 0; with_images := 0;
     with_discussions := 0; price_changes := 0; time_limited := 0 |}.

Definition product (b m raw : string) (pr : Z) : ProductSpec :=
  {| index := "0"; group := None; brand := b; model := m; specs := [];
     price := pr; original_price := None; discount_amount := None;
     markers := []; raw_text := raw |}.

Definition i5 : ProductSpec := product "Intel" "i5-13400" "Intel i5-13400" 6000.

Definition intel : Subcategory := {| name := "Intel"; products := [i5] |}.

Definition cpu : ProductCategory :=
  {| category_id := "C1"; category_name := "CPU"; summary := "processors";
     stats := no_stats; subcategories := [intel] |}.

(** One category, one subcategory, one product at price 6000. *)
Definition one_cpu : Catalog := [cpu].

(** [search_products({keyword: "i5", limit: 0})] *)
Definition i5_limit_0 : Search.Args :=
  {| Search.keyword := "i5"; Search.category := None; Search.min_price := None;
     Search.max_price := None; Search.limit := Some 0 |}.

(** [search_products({keyword: "i5", max_price: 0})] *)
Definition i5_max_0 : Search.Args :=
  {| Search.keyword := "i5"; Search.category := None; Search.min_price := None;
     Search.max_price := Some 0; Search.limit := None |}.

(** [search_products] with the empty keyword and [limit: 0] *)
Definition empty_limit_0 : Search.Args :=
  {| Search.keyword := EmptyString; Search.category := None;
     Search.min_price := None; Search.max_price := None; Search.limit := Some 0 |}.

(** Eleven memory modules, models [ram-a] to [ram-k]. *)
Definition ram (n : nat) : ProductSpec :=
  product "Kingston"
          ("ram-" ++ String (ascii_of_nat (97 + n)) EmptyString)%string
          "DDR5 RAM 16GB" 1500.

Definition modules : Subcategory :=
  {| name := "DDR5"; products := map ram (seq 0 11) |}.

Definition memory : ProductCategory :=
  {| category_id := "C2"; category_name := "Memory"; summary := "memory";
     stats := no_stats; subcategories := [modules] |}.

Definition eleven_modules : Catalog := [memory].

(** Two subcategories whose names differ by letter case only. *)
Definition intel_upper : Subcategory := {| name := "Intel"; products := [i5] |}.

Definition intel_lower : Subcategory :=
  {| name := "intel";
     products := [product "Intel" "i3-12100" "Intel i3-12100" 3500;
                  product "Intel" "i7-13700" "Intel i7-13700" 12000] |}.

Definition cpu_two_cases : ProductCategory :=
  {| category_id := "C1"; category_name := "CPU"; summary := "processors";
     stats := no_stats; subcategories := [intel_upper; intel_lower] |}.

Definition two_cases : Catalog := [cpu_two_cases].

(** A category with two subcategories of different names. *)
Definition amd : Subcategory :=
  {| name := "AMD";
     products := [product "AMD" "Ryzen 5 7600" "AMD Ryzen 5 7600" 6500;
                  product "AMD" "Ryzen 7 7700" "AMD Ryzen 7 7700" 9900] |}.

Definition cpu_two_brands : ProductCategory :=
  {| category_id := "C1"; category_name := "CPU"; summary := "processors";
     stats := no_stats; subcategories := [intel; amd] |}.

Definition two_brands : Catalog := [cpu_two_brands].

(** A category of twenty-one products in two subcategories. *)
Definition ddr5 : Subcategory := {| name := "DDR5"; products := map ram (seq 0 11) |}.

Definition ddr4 : Subcategory := {| name := "DDR4"; products := map ram (seq 11 10) |}.

Definition memory_21 : ProductCategory :=
  {| category_id := "C3"; category_name := "Memory"; summary := "memory";
     stats := no_stats; subcategories := [ddr5; ddr4] |}.

Definition twenty_one : Catalog := [memory_21].

(** A file system without the catalog document. *)
Definition no_file (path : string) : option string := None.

(** A parser that accepts nothing. *)
Definition no_parse (raw : string) : option Server.Parsed := None.

(** A file system whose catalog document is the text of an empty object. *)
Definition braces_file (path : string) : option string := Some "{}".

(** [JSON.parse] on that text: an object, which is not iterable. *)
Definition braces_parse (raw : string) : option Server.Parsed := Some Server.NotIterable.

End Samples.

(** Argument bags written field by field, for statements that vary one field. *)
Definition search_args (k : string) (cf : option string) (lo hi lim : option Z)
    : Search.Args :=
  {| Search.keyword := k; Search.category := cf; Search.min_price := lo;
     Search.max_price := hi; Search.limit := lim |}.

Definition category_args (id : string) (sn : option string) (lim : option Z)
    : CategoryProducts.Args :=
  {| CategoryProducts.arg_category_id := id;
     CategoryProducts.subcategory_name := sn;
     CategoryProducts.limit := lim |}.


(** ** Facts about strings *)

Section StringFacts.

Local Open Scope string_scope.

Lemma ascii_toLowerCase_app (s t : string) :
  ascii_toLowerCase (s ++ t) = ascii_toLowerCase s ++ ascii_toLowerCase t.
Proof.
  induction s as [|c s IH]; simpl; [reflexivity|]. now rewrite IH.
Qed.

(** The table that lowers [A]-[Z] keeps words apart. *)
Lemma ascii_separates_words : separates_words ascii_lowering.
Proof.
  intros s t. unfold toLowerCase, ascii_lowering.
  now rewrite !ascii_toLowerCase_app.
Qed.

Lemma prefix_empty (s : string) : String.prefix EmptyString s = true.
Proof. destruct s; reflexivity. Qed.

Lemma prefix_iff (k s : string) :
  String.prefix k s = true <-> exists t, s = k ++ t.
Proof.
  revert s. induction k as [|c k IH]; intros s.
  - rewrite prefix_empty. split; [exists s; reflexivity | reflexivity].
  - destruct s as [|d s]; simpl.
    + split; [discriminate | intros [t H]; discriminate].
    + destruct (ascii_dec c d) as [->|Hne].
      * rewrite IH. split; intros [t H]; exists t.
        -- now rewrite H.
        -- now injection H.
      * split; [discriminate|]. intros [t H]. injection H as H1 H2. now destruct Hne.
Qed.

Lemma includes_empty (s : string) : includes s EmptyString = true.
Proof. destruct s; reflexivity. Qed.

Lemma includes_iff (s k : string) :
  includes s k = true <-> exists u t, s = u ++ k ++ t.
Proof.
  induction s as [|c s IH].
  - cbn [includes]. rewrite orb_false_r, prefix_iff. split.
    + intros [t H]. exists EmptyString, t. exact H.
    + intros [u [t H]]. destruct u; simpl in H; [exists t; exact H | discriminate].
  - cbn [includes]. rewrite orb_true_iff, prefix_iff, IH. split.
    + intros [[t H]|[u [t H]]].
      * exists EmptyString, t. exact H.
      * exists (String c u), t. simpl. now rewrite H.
    + intros [u [t H]]. destruct u as [|d u]; simpl in H.
      * left. exists t. exact H.
      * right. injection H as _ H. exists u, t. exact H.
Qed.

Lemma append_assoc (s t u : string) : (s ++ t) ++ u = s ++ t ++ u.
Proof.
  induction s as [|c s IH]; simpl; [reflexivity|]. now rewrite IH.
Qed.

Lemma includes_app_r (s t k : string) :
  includes t k = true -> includes (s ++ t) k = true.
Proof.
  rewrite !includes_iff. intros [u [v H]]. exists (s ++ u), v.
  now rewrite H, append_assoc.
Qed.

Lemma includes_app_l (s t k : string) :
  includes s k = true -> includes (s ++ t) k = true.
Proof.
  rewrite !includes_iff. intros [u [v H]]. exists u, (v ++ t).
  now rewrite H, !append_assoc.
Qed.

Lemma piece_of_concat (s : string) (l : list string) :
  In s l -> piece s (String.concat " " l).
Proof.
  induction l as [|x l IH]; [intros []|].
  intros [->|Hin].
  - destruct l as [|y l]; [apply piece_whole|]. apply piece_before, piece_whole.
  - destruct l as [|y l]; [destruct Hin|]. apply piece_after, IH, Hin.
Qed.

(** Under a lower-casing that keeps words apart, what occurs in a piece of a
    text occurs in the text. *)
Lemma occurs_in_piece {L : Lowering} (k part text : string) :
  separates_words L -> piece part text ->
  occurs_ci k part = true -> occurs_ci k text = true.
Proof.
  intros Hsep Hpiece Hocc. unfold occurs_ci in *.
  induction Hpiece as [|s t _ IH|s t _ IH]; [exact Hocc| |]; rewrite Hsep.
  - now do 2 apply includes_app_r.
  - now apply includes_app_l.
Qed.

End StringFacts.

(** ** Facts about lists *)

Section ListFacts.
Context {A B : Type}.

Lemma firstn_saturated (n : nat) (l m : list A) :
  (n <= List.length (firstn n l))%nat -> firstn n (l ++ m) = firstn n l.
Proof.
  rewrite length_firstn. intros H.
  rewrite firstn_app.
  replace (n - List.length l)%nat with 0%nat by lia.
  simpl. apply app_nil_r.
Qed.

Lemma firstn_unsaturated (n : nat) (l : list A) :
  (List.length (firstn n l) < n)%nat -> firstn n l = l.
Proof.
  rewrite length_firstn. intros H. apply firstn_all2. lia.
Qed.

Lemma filter_flat_map (f : A -> list B) (p : B -> bool) (l : list A) :
  filter p (flat_map f l) = flat_map (fun x => filter p (f x)) l.
Proof.
  induction l as [|x l IH]; simpl; [reflexivity|].
  now rewrite filter_app, IH.
Qed.

Lemma map_flat_map {C : Type} (f : A -> list B) (g : B -> C) (l : list A) :
  map g (flat_map f l) = flat_map (fun x => map g (f x)) l.
Proof.
  induction l as [|x l IH]; simpl; [reflexivity|].
  now rewrite map_app, IH.
Qed.

Lemma filter_map_comm (f : A -> B) (p : B -> bool) (l : list A) :
  filter p (map f l) = map f (filter (fun x => p (f x)) l).
Proof.
  induction l as [|x l IH]; simpl; [reflexivity|].
  destruct (p (f x)); simpl; now rewrite IH.
Qed.

Lemma flat_map_nil (f : A -> list B) (l : list A) :
  (forall x, In x l -> f x = []) -> flat_map f l = [].
Proof.
  induction l as [|x l IH]; simpl; intros H; [reflexivity|].
  rewrite (H x (or_introl eq_refl)). apply IH. intros y Hy. apply H. now right.
Qed.

Lemma filter_none (p : A -> bool) (l : list A) :
  (forall x, In x l -> p x = false) -> filter p l = [].
Proof.
  induction l as [|x l IH]; simpl; intros H; [reflexivity|].
  rewrite (H x (or_introl eq_refl)). apply IH. intros y Hy. apply H. now right.
Qed.

End ListFacts.

(** ** Facts about the loops of [searchProducts] *)

Lemma view_hit (t : ProductCategory * Subcategory * ProductSpec) :
  Search.view (SearchSpec.hit t) = SearchSpec.shown t.
Proof. destruct t as [[cat sub] p]. reflexivity. Qed.

Section SearchLoops.
Import Search SearchSpec.

Context {L : Lowering}.
Variable a : Args.

(** Whatever the limit, a product is pushed only after it passed the guards. *)
Lemma product_loop_pushes cat sub ps res h :
  In h (product_loop a cat sub ps res) ->
  In h res \/ (product_ok a (hit_product h) = true /\ In (hit_product h) ps).
Proof.
  revert res. induction ps as [|p ps IH]; intros res; simpl; [now left|].
  unfold product_ok.
  destruct (keyword_ok a p) eqn:Hk; simpl.
  2:{ intros H. destruct (IH _ H) as [?|[? ?]]; [now left | right; tauto]. }
  destruct (below_min a p) eqn:Hmin; simpl.
  1:{ intros H. destruct (IH _ H) as [?|[? ?]]; [now left | right; tauto]. }
  destruct (above_max a p) eqn:Hmax; simpl.
  1:{ intros H. destruct (IH _ H) as [?|[? ?]]; [now left | right; tauto]. }
  assert (Hnew : forall x,
             In x (res ++ [hit (cat, sub, p)]) ->
             In x res \/ keyword_ok a (hit_product x) && negb (below_min a (hit_product x))
                         && negb (above_max a (hit_product x)) = true
                         /\ (p = hit_product x \/ In (hit_product x) ps)).
  { intros x Hx. apply in_app_or in Hx. destruct Hx as [Hx|[<-|[]]]; [now left|].
    right. simpl. rewrite Hk, Hmin, Hmax. auto. }
  simpl in Hnew.
  destruct (full a _).
  - apply Hnew.
  - intros H. destruct (IH _ H) as [Hin|[Hok Hin]]; [apply Hnew, Hin | right; tauto].
Qed.

Hypothesis limit_pos : 1 <= limit_of a.

Lemma full_iff (res : list Hit) :
  full a res = true <-> (Z.to_nat (limit_of a) <= List.length res)%nat.
Proof. unfold full. rewrite Z.geb_le. lia. Qed.

Lemma product_loop_firstn cat sub ps res :
  (List.length res < Z.to_nat (limit_of a))%nat ->
  product_loop a cat sub ps res =
  firstn (Z.to_nat (limit_of a))
         (res ++ map (fun p => hit (cat, sub, p)) (filter (product_ok a) ps)).
Proof.
  revert res. induction ps as [|p ps IH]; intros res Hlt; simpl.
  - rewrite app_nil_r. symmetry. apply firstn_all2. lia.
  - unfold product_ok at 1.
    destruct (keyword_ok a p); simpl; [|now apply IH].
    destruct (below_min a p); simpl; [now apply IH|].
    destruct (above_max a p); simpl; [now apply IH|].
    set (h := {| hit_product := p |}).
    match goal with
    | |- _ = firstn _ (res ++ h :: ?l) =>
        replace (res ++ h :: l) with ((res ++ [h]) ++ l)
          by now rewrite <- app_assoc
    end.
    destruct (full a (res ++ [h])) eqn:Hfull.
    + apply full_iff in Hfull. rewrite length_app in Hfull. simpl in Hfull.
      rewrite firstn_app, length_app. cbn [List.length].
      replace (Z.to_nat (limit_of a) - (List.length res + 1))%nat with 0%nat by lia.
      rewrite firstn_all2 by (rewrite length_app; simpl; lia).
      cbn [firstn]. now rewrite app_nil_r.
    + apply IH. rewrite length_app. simpl.
      destruct (Nat.lt_ge_cases (List.length res + 1) (Z.to_nat (limit_of a)))
        as [?|Hge]; [assumption|].
      assert (full a (res ++ [h]) = true)
        by (apply full_iff; rewrite length_app; simpl; lia).
      congruence.
Qed.

Lemma not_full (res : list Hit) :
  full a res = false -> (List.length res < Z.to_nat (limit_of a))%nat.
Proof.
  intros H. destruct (Nat.lt_ge_cases (List.length res) (Z.to_nat (limit_of a)))
    as [?|Hge]; [assumption|].
  apply full_iff in Hge. congruence.
Qed.

Lemma subcategory_loop_firstn cat subs res :
  (List.length res < Z.to_nat (limit_of a))%nat ->
  subcategory_loop a cat subs res =
  firstn (Z.to_nat (limit_of a))
         (res ++ flat_map
                   (fun sub => map (fun p => hit (cat, sub, p))
                                   (filter (product_ok a) (products sub)))
                   subs).
Proof.
  revert res. induction subs as [|sub subs IH]; intros res Hlt; simpl.
  - rewrite app_nil_r. symmetry. apply firstn_all2. lia.
  - rewrite product_loop_firstn by assumption. rewrite app_assoc.
    destruct (full a (firstn _ _)) eqn:Hfull.
    + apply full_iff in Hfull. symmetry. now apply firstn_saturated.
    + apply not_full in Hfull. pose proof (firstn_unsaturated _ _ Hfull) as Heq.
      rewrite Heq in *. now apply IH.
Qed.

Lemma category_hits cat :
  map hit
      (filter (passes a)
              (flat_map (fun sub => map (fun p => (cat, sub, p)) (products sub))
                        (subcategories cat))) =
  if skip_category a cat then []
  else flat_map
         (fun sub => map (fun p => hit (cat, sub, p))
                         (filter (product_ok a) (products sub)))
         (subcategories cat).
Proof.
  rewrite filter_flat_map, map_flat_map.
  destruct (skip_category a cat) eqn:Hskip.
  - apply flat_map_nil. intros sub _. rewrite filter_map_comm.
    rewrite filter_none; [reflexivity|].
    intros p _. simpl. now rewrite Hskip.
  - apply flat_map_ext. intros sub. rewrite filter_map_comm, map_map.
    f_equal. apply filter_ext. intros p. simpl. now rewrite Hskip.
Qed.

Lemma category_loop_firstn cats res :
  (List.length res < Z.to_nat (limit_of a))%nat ->
  category_loop a cats res =
  firstn (Z.to_nat (limit_of a))
         (res ++ map hit (filter (passes a) (catalog_order cats))).
Proof.
  revert res. induction cats as [|cat cats IH]; intros res Hlt.
  - simpl. rewrite app_nil_r. symmetry. apply firstn_all2. lia.
  - change (catalog_order (cat :: cats))
      with (flat_map (fun sub => map (fun p => (cat, sub, p)) (products sub))
                     (subcategories cat) ++ catalog_order cats).
    rewrite filter_app, map_app, category_hits. cbn [category_loop].
    destruct (skip_category a cat); [now apply IH|].
    rewrite subcategory_loop_firstn by assumption. rewrite app_assoc.
    destruct (full a (firstn _ _)) eqn:Hfull.
    + apply full_iff in Hfull. symmetry. now apply firstn_saturated.
    + apply not_full in Hfull. pose proof (firstn_unsaturated _ _ Hfull) as Heq.
      rewrite Heq in *. now apply IH.
Qed.

(** With a limit of at least one, the answer lists the first [limit]
    products that pass the guards, in catalog order. *)
Lemma searchProducts_firstn (c : Catalog) :
  results (searchProducts c a) =
  map shown (firstn (Z.to_nat (limit_of a)) (filter (passes a) (catalog_order c))).
Proof.
  unfold searchProducts. cbn [results].
  rewrite category_loop_firstn by (simpl; lia).
  cbn [app]. rewrite firstn_map, map_map. apply map_ext, view_hit.
Qed.

End SearchLoops.

Section SearchGuards.
Import Search SearchSpec.

Context {L : Lowering}.
Variable a : Args.

Lemma subcategory_loop_pushes cat subs res h :
  In h (subcategory_loop a cat subs res) ->
  In h res \/ product_ok a (hit_product h) = true.
Proof.
  revert res. induction subs as [|sub subs IH]; intros res; simpl; [now left|].
  assert (Hstep : forall x,
             In x (product_loop a cat sub (products sub) res) ->
             In x res \/ product_ok a (hit_product x) = true).
  { intros x Hx. apply product_loop_pushes in Hx. tauto. }
  destruct (full a _); [apply Hstep|].
  intros H. destruct (IH _ H) as [Hin|Hok]; [apply Hstep, Hin | now right].
Qed.

Lemma category_loop_pushes cats res h :
  In h (category_loop a cats res) ->
  In h res \/ product_ok a (hit_product h) = true.
Proof.
  revert res. induction cats as [|cat cats IH]; intros res; simpl; [now left|].
  destruct (skip_category a cat); [apply IH|].
  assert (Hstep : forall x,
             In x (subcategory_loop a cat (subcategories cat) res) ->
             In x res \/ product_ok a (hit_product x) = true)
    by (intros x; apply subcategory_loop_pushes).
  destruct (full a _); [apply Hstep|].
  intros H. destruct (IH _ H) as [Hin|Hok]; [apply Hstep, Hin | now right].
Qed.

(** Whatever the limit, a non-zero bound is respected by every result:
    the price is at least [min_price] and at most [max_price]. *)
Lemma searchProducts_within_bounds (c : Catalog) (v : View) :
  In v (results (searchProducts c a)) ->
  (forall m, min_price a = Some m -> m <> 0 -> m <= v_price v) /\
  (forall m, max_price a = Some m -> m <> 0 -> v_price v <= m).
Proof.
  unfold searchProducts. cbn [results]. rewrite in_map_iff.
  intros [h [<- Hin]]. apply category_loop_pushes in Hin.
  destruct Hin as [[]|Hok]. unfold product_ok in Hok.
  apply andb_true_iff in Hok. destruct Hok as [Hok Hmax].
  apply andb_true_iff in Hok. destruct Hok as [_ Hmin].
  unfold below_min, above_max, truthy_num in *. cbn [view v_price].
  split; intros m Hm Hne.
  - rewrite Hm in Hmin. destruct (Z.eqb_spec m 0); [contradiction|].
    simpl in Hmin. apply negb_true_iff, Z.ltb_ge in Hmin. exact Hmin.
  - rewrite Hm in Hmax. destruct (Z.eqb_spec m 0); [contradiction|].
    simpl in Hmax. apply negb_true_iff in Hmax. rewrite Z.gtb_ltb in Hmax.
    apply Z.ltb_ge in Hmax. exact Hmax.
Qed.


(** The keyword guard is the occurrence of the keyword in the combined text. *)
Lemma keyword_ok_text (p : ProductSpec) :
  keyword_ok a p = occurs_ci (keyword a) (combined_text p).
Proof. reflexivity. Qed.

(** Under a lower-casing that keeps words apart, a keyword that occurs in a
    piece of the combined text passes the keyword guard. *)
Lemma keyword_in_piece (p : ProductSpec) (part : string) :
  separates_words L -> piece part (combined_text p) ->
  occurs_ci (keyword a) part = true -> keyword_ok a p = true.
Proof.
  intros Hsep Hpiece Hocc. rewrite keyword_ok_text.
  now apply (occurs_in_piece _ part).
Qed.

Lemma raw_text_is_piece (p : ProductSpec) : piece (raw_text p) (combined_text p).
Proof. unfold combined_text. do 3 apply piece_after. apply piece_whole. Qed.

(** Under a lower-casing that keeps the empty string, the empty keyword
    passes the keyword guard of every product. *)
Lemma empty_keyword_ok (p : ProductSpec) :
  toLowerCase EmptyString = EmptyString ->
  keyword a = EmptyString -> keyword_ok a p = true.
Proof. unfold keyword_ok. intros Hlow ->. rewrite Hlow. apply includes_empty. Qed.

End SearchGuards.

(** ** [searchProducts]: the result cap, the keyword and the price bounds *)

Lemma passes_keyword_only {L : Lowering} (k : string)
    (t : ProductCategory * Subcategory * ProductSpec) :
  SearchSpec.passes (SearchSpec.keyword_only k) t = SearchSpec.text_matches k t.
Proof.
  destruct t as [[cat sub] p]. cbn [SearchSpec.passes SearchSpec.text_matches].
  unfold SearchSpec.product_ok, Search.skip_category, Search.below_min, Search.above_max.
  cbn. now rewrite !andb_true_r.
Qed.

Lemma in_firstn_middle {A : Type} (n : nat) (l1 l2 : list A) (x : A) :
  (List.length l1 < n)%nat -> In x (firstn n (l1 ++ x :: l2)).
Proof.
  intros H. rewrite firstn_app. apply in_or_app. right.
  destruct (n - List.length l1)%nat as [|k] eqn:E; [lia|]. now left.
Qed.

Section SearchClaims.
Import Search SearchSpec Samples.

(** C1, at the input where the code departs from it: on the catalog with
    the single product [i5-13400], [search_products({keyword: "i5", limit: 0})]
    answers with one result although the limit is zero, because the length
    of [results] is compared with [limit] only after a push. *)
Theorem searchProducts_limit_zero :
  limit_of i5_limit_0 = 0 /\
  results (searchProducts (L := ascii_lowering) one_cpu i5_limit_0)
    = [shown (cpu, intel, i5)] /\
  total_found (searchProducts (L := ascii_lowering) one_cpu i5_limit_0) = 1%nat.
Proof. repeat split. Qed.

(** C2 as stated fails: the eleventh of eleven products whose [raw_text]
    contains the keyword is missing from the answer of a call with the
    keyword alone, since the default limit keeps the first ten. *)
Lemma search_completeness_fails :
  ~ (forall (c : Catalog) cat sub p (k : string),
        In (cat, sub, p) (catalog_order c) ->
        occurs_ci (L := ascii_lowering) k (raw_text p) = true ->
        In (shown (cat, sub, p))
           (results (searchProducts (L := ascii_lowering) c (keyword_only k)))).
Proof.
  intros H.
  specialize (H eleven_modules memory modules (ram 10) "ram").
  assert (Hin : In (memory, modules, ram 10) (catalog_order eleven_modules))
    by (vm_compute; tauto).
  specialize (H Hin eq_refl). vm_compute in H.
  repeat (destruct H as [H|H]; [discriminate H|]). exact H.
Qed.

(** C2, amended: a product whose [raw_text] contains the keyword, both
    lower-cased, is in the answer of [search_products({keyword})] whenever
    fewer than ten products whose combined text contains the keyword come
    before it in catalog order, ten being the default limit. The
    lower-casing is any one under which a space keeps words apart. *)
Theorem search_completeness {L : Lowering} (c : Catalog) before cat sub p after
    (k : string) :
  separates_words L ->
  catalog_order c = before ++ (cat, sub, p) :: after ->
  occurs_ci k (raw_text p) = true ->
  (List.length (filter (text_matches k) before) < 10)%nat ->
  In (shown (cat, sub, p)) (results (searchProducts c (keyword_only k))).
Proof.
  intros Hsep Horder Hocc Hfew.
  rewrite searchProducts_firstn by (cbn; lia).
  change (Z.to_nat (limit_of (keyword_only k))) with 10%nat.
  apply in_map. rewrite Horder, filter_app. cbn [filter].
  rewrite (passes_keyword_only k (cat, sub, p)). cbn [text_matches].
  rewrite (occurs_in_piece k (raw_text p) (combined_text p) Hsep (raw_text_is_piece p) Hocc).
  apply in_firstn_middle.
  rewrite (filter_ext _ _ (passes_keyword_only k)). exact Hfew.
Qed.

Lemma search_completeness_witness :
  In (shown (memory, modules, ram 9))
     (results (searchProducts (L := ascii_lowering) eleven_modules (keyword_only "RAM"))).
Proof.
  apply (search_completeness (L := ascii_lowering) eleven_modules
           (map (fun n => (memory, modules, ram n)) (seq 0 9))
           memory modules (ram 9) [(memory, modules, ram 10)] "RAM").
  - exact ascii_separates_words.
  - reflexivity.
  - reflexivity.
  - vm_compute. lia.
Defined.

(** C3, at the input where the code departs from it: with [max_price: 0]
    the product priced 6000 is returned, because the bound [0] is falsy and
    the guard [max_price && ...] skips the comparison. *)
Theorem searchProducts_max_price_zero :
  max_price i5_max_0 = Some 0 /\
  price i5 = 6000 /\
  results (searchProducts (L := ascii_lowering) one_cpu i5_max_0)
    = [shown (cpu, intel, i5)].
Proof. repeat split. Qed.

(** C9, at the input where the code departs from it: with the empty keyword
    and [limit: 0] the answer holds one product, where the first zero
    products are none; the length of [results] is compared with [limit]
    only after a push. *)
Theorem searchProducts_empty_keyword_limit_zero :
  keyword empty_limit_0 = EmptyString /\
  limit_of empty_limit_0 = 0 /\
  results (searchProducts (L := ascii_lowering) one_cpu empty_limit_0)
    = [shown (cpu, intel, i5)] /\
  total_found (searchProducts (L := ascii_lowering) one_cpu empty_limit_0) = 1%nat.
Proof. repeat split. Qed.

End SearchClaims.

(** ** [getProductByModel]: the first product with the model *)

Section ByModelClaims.
Import ByModel.

Context {L : Lowering}.
Variable m : string.

Lemma find_app_first {A : Type} (f : A -> bool) (l l' : list A) :
  find f (l ++ l') = match find f l with Some x => Some x | None => find f l' end.
Proof.
  induction l as [|x l IH]; simpl; [reflexivity|]. destruct (f x); [reflexivity | exact IH].
Qed.

Lemma find_same_test {A : Type} (f g : A -> bool) (l : list A) :
  (forall x, f x = g x) -> find f l = find g l.
Proof.
  intros H. induction l as [|x l IH]; cbn; [reflexivity|]. now rewrite H, IH.
Qed.

Lemma product_loop_find cat sub ps :
  product_loop m cat sub ps =
  option_map found_at (find (is_model m) (map (fun p => (cat, sub, p)) ps)).
Proof.
  induction ps as [|p ps IH]; simpl; [reflexivity|].
  unfold same_model.
  destruct (toLowerCase (model p) =? toLowerCase m)%string; [reflexivity | exact IH].
Qed.

Lemma subcategory_loop_find cat subs :
  subcategory_loop m cat subs =
  option_map found_at
    (find (is_model m)
          (flat_map (fun sub => map (fun p => (cat, sub, p)) (products sub)) subs)).
Proof.
  induction subs as [|sub subs IH]; simpl; [reflexivity|].
  rewrite find_app_first, product_loop_find.
  destruct (find _ (map _ _)); [reflexivity | exact IH].
Qed.

Lemma category_loop_find cats :
  category_loop m cats = option_map found_at (find (is_model m) (catalog_order cats)).
Proof.
  induction cats as [|cat cats IH]; simpl; [reflexivity|].
  rewrite find_app_first, subcategory_loop_find.
  destruct (find _ (flat_map _ _)); [reflexivity | exact IH].
Qed.

Lemma getProductByModel_find (c : Catalog) :
  getProductByModel c m =
  match find (is_model m) (catalog_order c) with
  | Some t => found_at t
  | None => missing m
  end.
Proof.
  unfold getProductByModel. rewrite category_loop_find.
  destruct (find _ _); reflexivity.
Qed.

End ByModelClaims.

Lemma message_names_model (m : string) :
  includes ("Product with model " ++ dquote ++ m ++ dquote ++ " not found")%string m = true.
Proof.
  apply includes_iff.
  exists ("Product with model " ++ dquote)%string, (dquote ++ " not found")%string.
  now rewrite append_assoc.
Qed.

(** C4: whatever the lower-casing, [getProductByModel] answers with the
    first product, in catalog order, whose lower-cased model equals the
    lower-cased query; the answer shows the product's brand, model, specs,
    price, original price, discount, markers and raw text with the names of
    the category and subcategory that hold it. When no product has the model
    the answer is [found: false] with the message
    [Product with model "m" not found], which contains the query. *)
Theorem getProductByModel_first {L : Lowering} (c : Catalog) (m : string) :
  ByModel.getProductByModel c m =
  match find (fun t : ProductCategory * Subcategory * ProductSpec =>
                (toLowerCase (model (snd t)) =? toLowerCase m)%string)
             (catalog_order c) with
  | Some (cat, sub, p) =>
      ByModel.Found
        {| ByModel.d_brand := brand p;
           ByModel.d_model := model p;
           ByModel.d_specs := specs p;
           ByModel.d_price := price p;
           ByModel.d_original_price := original_price p;
           ByModel.d_discount_amount := discount_amount p;
           ByModel.d_category := category_name cat;
           ByModel.d_subcategory := name sub;
           ByModel.d_markers := markers p;
           ByModel.d_raw_text := raw_text p |}
  | None =>
      ByModel.NotFound
        ("Product with model " ++ dquote ++ m ++ dquote ++ " not found")%string
  end /\
  includes ("Product with model " ++ dquote ++ m ++ dquote ++ " not found")%string m = true.
Proof.
  split; [|apply message_names_model].
  rewrite getProductByModel_find.
  rewrite (find_same_test (is_model m)
             (fun t => (toLowerCase (model (snd t)) =? toLowerCase m)%string))
    by (intros [[cat sub] p]; reflexivity).
  destruct (find _ _) as [[[cat sub] p]|]; reflexivity.
Qed.

(** ** [getCategoryProducts] and [listCategories] *)

Section FindFacts.
Context {A : Type}.

Lemma find_absent (f : A -> bool) (l : list A) :
  (forall x, In x l -> f x = false) -> find f l = None.
Proof.
  induction l as [|x l IH]; simpl; intros H; [reflexivity|].
  rewrite (H x (or_introl eq_refl)). apply IH. intros y Hy. apply H. now right.
Qed.

Lemma find_first_such (f : A -> bool) (P : A -> Prop) (l : list A) (x : A) :
  (forall y, f y = true <-> P y) -> first_such P l x -> find f l = Some x.
Proof.
  intros Hf (before & after & -> & Hx & Hbefore).
  rewrite find_app_first, find_absent.
  - simpl. apply Hf in Hx. now rewrite Hx.
  - intros y Hy. destruct (f y) eqn:E; [|reflexivity].
    apply Hf in E. now apply Hbefore in E.
Qed.

Lemma find_unique {K : Type} (key : A -> K) (f : A -> bool) (l : list A) (x : A) :
  NoDup (map key l) -> In x l ->
  (forall y, f y = true <-> key y = key x) ->
  find f l = Some x.
Proof.
  intros Hnd Hin Hf. induction l as [|y l IH]; [destruct Hin|].
  simpl in Hnd. inversion Hnd as [|? ? Hnotin Hnd']; subst. simpl.
  destruct Hin as [->|Hin].
  - assert (E : f x = true) by now apply Hf. now rewrite E.
  - destruct (f y) eqn:E; [|now apply IH].
    apply Hf in E. exfalso. apply Hnotin. rewrite E. now apply in_map.
Qed.

End FindFacts.

Section CategoryProductsFacts.
Import CategoryProducts.

Context {L : Lowering}.

Lemma push_all_app (subs : list Subcategory) (acc : list Tagged) :
  push_all subs acc = acc ++ flat_map tag_all subs.
Proof.
  revert acc. induction subs as [|sub subs IH]; intros acc; simpl.
  - now rewrite app_nil_r.
  - now rewrite IH, app_assoc.
Qed.

Lemma push_all_tagged (cat : ProductCategory) :
  push_all (subcategories cat) [] = all_tagged cat.
Proof. now rewrite push_all_app. Qed.

Lemma length_tag_all (sub : Subcategory) :
  List.length (tag_all sub) = List.length (products sub).
Proof. apply length_map. Qed.

Lemma length_all_tagged (cat : ProductCategory) :
  List.length (all_tagged cat) = count_products cat.
Proof.
  unfold all_tagged, count_products.
  induction (subcategories cat) as [|sub subs IH]; simpl; [reflexivity|].
  now rewrite length_app, length_tag_all, IH.
Qed.

Lemma id_not_found_names_id (id : string) :
  includes ("Category with ID " ++ dquote ++ id ++ dquote ++ " not found")%string id = true.
Proof.
  apply includes_iff.
  exists ("Category with ID " ++ dquote)%string, (dquote ++ " not found")%string.
  now rewrite append_assoc.
Qed.

Lemma slice0_kept {A : Type} (arr : list A) (end_ : Z) :
  slice0 arr end_ = kept end_ arr.
Proof.
  unfold slice0, kept. destruct (Z.ltb_spec end_ 0) as [Hneg|Hpos].
  - f_equal. lia.
  - destruct (Z.le_ge_cases end_ (Z.of_nat (List.length arr))) as [Hle|Hge].
    + f_equal. lia.
    + rewrite !firstn_all2 by lia. reflexivity.
Qed.

Lemma kept_map {A B : Type} (f : A -> B) (limit : Z) (l : list A) :
  map f (kept limit l) = kept limit (map f l).
Proof. unfold kept. now rewrite firstn_map, length_map. Qed.

Lemma kept_all {A : Type} (limit : Z) (l : list A) :
  Z.of_nat (List.length l) <= limit -> kept limit l = l.
Proof.
  intros H. unfold kept. destruct (Z.ltb_spec limit 0); [lia|].
  apply firstn_all2. lia.
Qed.

Lemma view_tag_all (sub : Subcategory) :
  map view (tag_all sub) = map (listed sub) (products sub).
Proof. unfold tag_all. rewrite map_map. reflexivity. Qed.

Lemma view_all_tagged (cat : ProductCategory) :
  map view (all_tagged cat) = category_listing cat.
Proof.
  unfold all_tagged, category_listing. rewrite map_flat_map.
  apply flat_map_ext. intros sub. apply view_tag_all.
Qed.

Lemma length_category_listing (cat : ProductCategory) :
  List.length (category_listing cat) = count_products cat.
Proof. now rewrite <- view_all_tagged, length_map, length_all_tagged. Qed.

(** The listing of a whole category, field by field. *)
Lemma whole_listing (a : Args) (cat : ProductCategory) :
  exists l,
    listing a cat None (all_tagged cat) = Listed l /\
    l_category_name l = category_name cat /\
    subcategory_filter l = None /\
    total_products l = count_products cat /\
    showing l = List.length (l_products l) /\
    l_products l = kept (limit_of a) (category_listing cat).
Proof.
  eexists. split; [reflexivity|]. cbn. repeat split.
  - apply length_all_tagged.
  - now rewrite slice0_kept, kept_map, view_all_tagged.
Qed.

(** The answer to a call without a truthy [subcategory_name], once the
    category is found. *)
Lemma getCategoryProducts_whole (c : Catalog) (a : Args) (cat : ProductCategory) :
  first_such (fun x => category_id x = arg_category_id a) c cat ->
  if_truthy (subcategory_name a) = None ->
  getCategoryProducts c a = listing a cat None (all_tagged cat).
Proof.
  intros Hfirst Hsub. unfold getCategoryProducts.
  rewrite (find_first_such _ _ _ _ (fun y => String.eqb_eq _ _) Hfirst).
  now rewrite Hsub, push_all_tagged.
Qed.

Lemma getCategoryProducts_unknown (c : Catalog) (a : Args) :
  (forall cat, In cat c -> category_id cat <> arg_category_id a) ->
  getCategoryProducts c a = NotFound (category_not_found (arg_category_id a)).
Proof.
  intros H. unfold getCategoryProducts. rewrite find_absent; [reflexivity|].
  intros cat Hin. apply String.eqb_neq. now apply H.
Qed.

End CategoryProductsFacts.

Section CategoryProductsClaims.
Import CategoryProducts Categories Samples.

(** C5 as stated fails: in a category whose subcategories [Intel] and
    [intel] differ by letter case only, [list_categories] counts two products
    for [intel], while [get_category_products] with that name finds [Intel]
    first and reports one. *)
Lemma count_consistency_fails :
  ~ (forall (c : Catalog) ci si lim,
        In ci (categories (listCategories c)) ->
        In si (ci_subcategories ci) ->
        exists l,
          getCategoryProducts (L := ascii_lowering) c
            {| arg_category_id := ci_category_id ci;
               subcategory_name := Some (si_name si);
               limit := lim |} = Listed l /\
          total_products l = product_count si).
Proof.
  intros H.
  destruct (H two_cases
              {| ci_category_id := "C1"; ci_category_name := "CPU"; ci_stats := no_stats;
                 ci_subcategories := [ {| si_name := "Intel"; product_count := 1 |};
                                       {| si_name := "intel"; product_count := 2 |} ] |}
              {| si_name := "intel"; product_count := 2 |} None)
    as [l [Hl Htotal]].
  - left. reflexivity.
  - right. left. reflexivity.
  - vm_compute in Hl. injection Hl as <-. discriminate Htotal.
Qed.

(** C5, amended: whatever the lower-casing, in a catalog whose category ids
    are pairwise distinct and whose subcategory names are non-empty and,
    within a category, pairwise distinct once lower-cased, the
    [product_count] that [list_categories] reports for a subcategory equals
    the [total_products] that [get_category_products] reports for that
    category id and that subcategory name, whatever the limit. *)
Theorem count_consistency {L : Lowering} (c : Catalog) ci si lim :
  NoDup (map category_id c) ->
  (forall cat, In cat c ->
     NoDup (map (fun sub => toLowerCase (name sub)) (subcategories cat))) ->
  (forall cat sub, In cat c -> In sub (subcategories cat) -> name sub <> EmptyString) ->
  In ci (categories (listCategories c)) ->
  In si (ci_subcategories ci) ->
  exists l,
    getCategoryProducts c {| arg_category_id := ci_category_id ci;
                             subcategory_name := Some (si_name si);
                             limit := lim |} = Listed l /\
    total_products l = product_count si.
Proof.
  intros Hids Hnames Hnonempty Hci Hsi.
  cbn in Hci. apply in_map_iff in Hci. destruct Hci as [cat [<- Hcat]].
  cbn in Hsi. apply in_map_iff in Hsi. destruct Hsi as [sub [<- Hsub]].
  unfold getCategoryProducts. cbn.
  rewrite (find_unique category_id _ c cat Hids Hcat (fun y => String.eqb_eq _ _)).
  pose proof (Hnonempty cat sub Hcat Hsub) as Hne.
  destruct (name sub) as [|ch rest] eqn:Hname; [contradiction|]. cbn [truthy].
  rewrite <- Hname.
  rewrite (find_unique (fun s => toLowerCase (name s)) _ _ sub
             (Hnames cat Hcat) Hsub (fun y => String.eqb_eq _ _)).
  eexists. split; [reflexivity|]. cbn. apply length_tag_all.
Qed.

Lemma count_consistency_witness :
  exists l,
    getCategoryProducts (L := ascii_lowering) two_brands
      {| arg_category_id := "C1"; subcategory_name := Some "AMD"; limit := None |}
    = Listed l /\
    total_products l = 2%nat.
Proof.
  apply (count_consistency (L := ascii_lowering) two_brands
           {| ci_category_id := "C1"; ci_category_name := "CPU"; ci_stats := no_stats;
              ci_subcategories := [ {| si_name := "Intel"; product_count := 1 |};
                                    {| si_name := "AMD"; product_count := 2 |} ] |}
           {| si_name := "AMD"; product_count := 2 |} None).
  - simpl. constructor; [intros [] | constructor].
  - intros cat [<-|[]]. vm_compute.
    constructor; [intros [H|[]]; discriminate H|].
    constructor; [intros [] | constructor].
  - intros cat sub [<-|[]] [<-|[<-|[]]]; discriminate.
  - left. reflexivity.
  - right. left. reflexivity.
Defined.

(** C6: a [category_id] equal to no stored id gives [found: false] with the
    message [Category with ID "id" not found], which contains the id. For the
    first category with the id and no [subcategory_name], the listing bears
    the category's name and a null [subcategory_filter], [total_products] is
    the sum of the product counts of its subcategories, and the products are
    those of its subcategories, concatenated in source order, each with its
    own fields and its subcategory's name: the first [limit] of them (20
    without a limit), all of them when they are at most [limit]. *)
Theorem getCategoryProducts_by_id {L : Lowering} (c : Catalog) (a : Args) :
  let id := arg_category_id a in
  let lim := match limit a with Some n => n | None => 20 end in
  ((forall cat, In cat c -> category_id cat <> id) ->
   getCategoryProducts c a =
     NotFound ("Category with ID " ++ dquote ++ id ++ dquote ++ " not found")%string /\
   includes ("Category with ID " ++ dquote ++ id ++ dquote ++ " not found")%string id
     = true) /\
  (forall cat,
     first_such (fun x => category_id x = id) c cat ->
     subcategory_name a = None ->
     exists l,
       getCategoryProducts c a = Listed l /\
       l_category_name l = category_name cat /\
       subcategory_filter l = None /\
       total_products l = count_products cat /\
       showing l = List.length (l_products l) /\
       l_products l = kept lim (category_listing cat) /\
       (Z.of_nat (count_products cat) <= lim -> l_products l = category_listing cat)).
Proof.
  cbn zeta. split.
  - intros H. split; [now apply getCategoryProducts_unknown | apply id_not_found_names_id].
  - intros cat Hfirst Hsub.
    rewrite (getCategoryProducts_whole c a cat Hfirst) by now rewrite Hsub.
    destruct (whole_listing a cat) as [l [Hl [Hn [Hf [Ht [Hs Hp]]]]]].
    exists l. repeat split; try assumption.
    intros Hall. rewrite Hp. apply kept_all. now rewrite length_category_listing.
Qed.

Lemma getCategoryProducts_by_id_witness :
  getCategoryProducts (L := ascii_lowering) two_brands (category_args "C2" None None)
  = NotFound (category_not_found "C2") /\
  exists l,
    getCategoryProducts (L := ascii_lowering) two_brands (category_args "C1" None (Some 2))
    = Listed l /\
    total_products l = 3%nat /\
    l_products l = [listed intel i5; listed amd (product "AMD" "Ryzen 5 7600"
                                                         "AMD Ryzen 5 7600" 6500)].
Proof.
  split.
  - apply (getCategoryProducts_by_id (L := ascii_lowering) two_brands
             (category_args "C2" None None)).
    intros cat [<-|[]]. discriminate.
  - destruct (proj2 (getCategoryProducts_by_id (L := ascii_lowering) two_brands
                       (category_args "C1" None (Some 2))) cpu_two_brands)
      as [l [Hl [_ [_ [Ht [_ [Hp _]]]]]]].
    + exists [], []. repeat split. intros y [].
    + reflexivity.
    + exists l. repeat split; assumption.
Defined.

(** C10 as stated fails: in a category of twenty-one products, the call with
    an empty [subcategory_name] and no limit lists twenty of them, as the
    call without [subcategory_name] does, and not all of them. *)
Lemma empty_subcategory_not_all :
  ~ (forall (c : Catalog) (id : string) (lim : option Z) cat,
        first_such (fun x => category_id x = id) c cat ->
        exists l,
          getCategoryProducts (L := ascii_lowering) c
            (category_args id (Some EmptyString) lim) = Listed l /\
          subcategory_filter l = None /\
          l_products l = category_listing cat).
Proof.
  intros H.
  destruct (H twenty_one "C3" None memory_21) as [l [Hl [_ Hall]]].
  - exists [], []. repeat split. intros y [].
  - vm_compute in Hl. injection Hl as <-.
    apply (f_equal (@List.length View)) in Hall. vm_compute in Hall. discriminate Hall.
Qed.

(** C10, amended: whatever the lower-casing, an empty [subcategory_name] is
    answered exactly as an omitted one; for the first category with the id
    the answer is a listing, never a subcategory not-found result, with
    [subcategory_filter] null, whose [total_products] counts the products of
    all the subcategories and whose products are their concatenation in
    source order cut to the first [limit] (20 without a limit): all of them
    when they are at most [limit]. *)
Theorem getCategoryProducts_empty_subcategory {L : Lowering} (c : Catalog)
    (id : string) (lim : option Z) :
  let n := match lim with Some n => n | None => 20 end in
  getCategoryProducts c (category_args id (Some EmptyString) lim)
  = getCategoryProducts c (category_args id None lim) /\
  (forall cat,
     first_such (fun x => category_id x = id) c cat ->
     exists l,
       getCategoryProducts c (category_args id (Some EmptyString) lim) = Listed l /\
       subcategory_filter l = None /\
       total_products l = count_products cat /\
       l_products l = kept n (category_listing cat) /\
       (Z.of_nat (count_products cat) <= n -> l_products l = category_listing cat)).
Proof.
  cbn zeta. split; [reflexivity|].
  intros cat Hfirst.
  rewrite (getCategoryProducts_whole c (category_args id (Some EmptyString) lim)
             cat Hfirst) by reflexivity.
  destruct (whole_listing (category_args id (Some EmptyString) lim) cat)
    as [l [Hl [_ [Hf [Ht [_ Hp]]]]]].
  exists l. repeat split; try assumption.
  intros Hall. rewrite Hp. apply kept_all. now rewrite length_category_listing.
Qed.

Lemma getCategoryProducts_empty_subcategory_witness :
  exists l,
    getCategoryProducts (L := ascii_lowering) twenty_one
      (category_args "C3" (Some EmptyString) None) = Listed l /\
    subcategory_filter l = None /\
    total_products l = 21%nat /\
    l_products l = firstn 20 (category_listing memory_21).
Proof.
  destruct (proj2 (getCategoryProducts_empty_subcategory (L := ascii_lowering)
                     twenty_one "C3" None) memory_21)
    as [l [Hl [Hf [Ht [Hp _]]]]].
  - exists [], []. repeat split. intros y [].
  - exists l. repeat split; assumption.
Defined.

End CategoryProductsClaims.

(** ** The server: failed ingestion and read-only handlers *)

Section ServerFacts.
Import Server.

Context {L : Lowering}.

Lemma callTool_reads (request : Request) (s : State) :
  execState (callTool request) s = s.
Proof. destruct request, s as [[data|]]; reflexivity. Qed.

Lemma serve_run (requests : list Request) (s : State) :
  runState (serve requests) s =
  (map (fun request => evalState (callTool request) s) requests, s).
Proof.
  induction requests as [|request rest IH]; [reflexivity|].
  cbn [serve map]. destruct request, s as [[data|]]; cbn in *; now rewrite IH.
Qed.

End ServerFacts.

Section ServerClaims.
Import Server.

(** C7 as stated fails: a catalog document that is read and parsed without
    an exception but is not an array of categories, such as [{}], is stored as
    it is; the server then does not hold the empty catalog and a [TypeError]
    is thrown in each of the four handlers. *)
Lemma malformed_document_stored :
  let this := constructor Samples.braces_file Samples.braces_parse "product.json" in
  productData this <> Categories [] /\
  (forall a, evalState (searchProducts (L := ascii_lowering) a) this = TypeError) /\
  (forall m, evalState (getProductByModel (L := ascii_lowering) m) this = TypeError) /\
  evalState listCategories this = TypeError /\
  (forall a, evalState (getCategoryProducts (L := ascii_lowering) a) this = TypeError).
Proof. cbn. repeat split. discriminate. Qed.

(** C7, amended: when reading or parsing the catalog document throws, the
    server holds the empty catalog, and on it every handler answers: the
    search with no result, the model lookup and the category lookup with
    [found: false], the category index with no category. *)
Theorem failed_ingestion_served {L : Lowering}
    (readFileSync : string -> option string)
    (JSON_parse : string -> option Parsed) (productPath : string) :
  readFileSync productPath = None \/
  (exists rawData, readFileSync productPath = Some rawData /\ JSON_parse rawData = None) ->
  let this := constructor readFileSync JSON_parse productPath in
  productData this = Categories [] /\
  (forall a, evalState (searchProducts a) this =
             Returned {| Search.total_found := 0; Search.results := [] |}) /\
  (forall m, evalState (getProductByModel m) this =
             Returned (ByModel.NotFound
                         ("Product with model " ++ dquote ++ m ++ dquote ++ " not found")%string)) /\
  evalState listCategories this =
    Returned {| Categories.total_categories := 0; Categories.categories := [] |} /\
  (forall a, evalState (getCategoryProducts a) this =
             Returned (CategoryProducts.NotFound
                         ("Category with ID " ++ dquote ++ CategoryProducts.arg_category_id a
                            ++ dquote ++ " not found")%string)).
Proof.
  intros Hfail this.
  assert (Hempty : this = {| productData := Categories [] |}).
  { unfold this, constructor, loadProductData.
    destruct Hfail as [->|[rawData [-> ->]]]; reflexivity. }
  rewrite Hempty. repeat split.
Qed.

Lemma failed_ingestion_served_witness :
  productData (constructor Samples.no_file Samples.no_parse "product.json") = Categories [] /\
  evalState (searchProducts (L := ascii_lowering) Samples.i5_limit_0)
            (constructor Samples.no_file Samples.no_parse "product.json")
  = Returned {| Search.total_found := 0; Search.results := [] |}.
Proof.
  destruct (failed_ingestion_served (L := ascii_lowering)
              Samples.no_file Samples.no_parse "product.json")
    as [Hdata [Hsearch _]].
  - left. reflexivity.
  - split; [exact Hdata | apply Hsearch].
Defined.

(** C8: a handler leaves the server state as it found it, and in a session
    of any requests each response is the one the handler gives on the
    initial catalog for that request alone; so equal requests get equal
    responses wherever they stand in the session. *)
Theorem handlers_pure {L : Lowering} (s : State) (requests : list Request) :
  (forall request, execState (callTool request) s = s) /\
  execState (serve requests) s = s /\
  evalState (serve requests) s = map (fun request => evalState (callTool request) s) requests.
Proof.
  split; [intros request; apply callTool_reads|].
  unfold execState, evalState. now rewrite serve_run.
Qed.

End ServerClaims.

(** ** The boundary and price-range scenarios, run on the embedding *)

Section Scenarios.
Import Samples.

Example scenario_search_i5 :
  Search.results (Search.searchProducts (L := ascii_lowering) one_cpu (SearchSpec.keyword_only "i5")) =
  [SearchSpec.shown (cpu, intel, i5)].
Proof. reflexivity. Qed.

Example scenario_model_ignores_case :
  ByModel.getProductByModel (L := ascii_lowering) one_cpu "I5-13400" =
  ByModel.Found (ByModel.detail cpu intel i5).
Proof. reflexivity. Qed.

Example scenario_subcategory_ignores_case :
  exists l,
    CategoryProducts.getCategoryProducts (L := ascii_lowering) one_cpu
      {| CategoryProducts.arg_category_id := "C1";
         CategoryProducts.subcategory_name := Some "intel";
         CategoryProducts.limit := None |} = CategoryProducts.Listed l /\
    CategoryProducts.total_products l = 1%nat /\
    CategoryProducts.showing l = 1%nat /\
    CategoryProducts.subcategory_filter l = Some "Intel".
Proof. eexists. repeat split. Qed.

Example scenario_unknown_category :
  CategoryProducts.getCategoryProducts (L := ascii_lowering) one_cpu
    {| CategoryProducts.arg_category_id := "C2";
       CategoryProducts.subcategory_name := None;
       CategoryProducts.limit := None |} =
  CategoryProducts.NotFound (CategoryProducts.category_not_found "C2").
Proof. reflexivity. Qed.

Example scenario_min_price_7000 :
  Search.results
    (Search.searchProducts (L := ascii_lowering) one_cpu
       {| Search.keyword := "i5"; Search.category := None;
          Search.min_price := Some 7000; Search.max_price := None;
          Search.limit := None |}) = [].
Proof. reflexivity. Qed.

Example scenario_max_price_5999 :
  Search.results
    (Search.searchProducts (L := ascii_lowering) one_cpu
       {| Search.keyword := "i5"; Search.category := None;
          Search.min_price := None; Search.max_price := Some 5999;
          Search.limit := None |}) = [].
Proof. reflexivity. Qed.

Example scenario_price_window :
  Search.results
    (Search.searchProducts (L := ascii_lowering) one_cpu
       {| Search.keyword := "i5"; Search.category := None;
          Search.min_price := Some 5000; Search.max_price := Some 7000;
          Search.limit := None |}) = [SearchSpec.shown (cpu, intel, i5)].
Proof. reflexivity. Qed.

End Scenarios.

(** ** [searchProducts] under any limit *)

Section SearchAnyLimit.
Import Search SearchSpec.

Context {L : Lowering}.
Variable a : Args.

Lemma full_true_iff (res : list Hit) :
  full a res = true <-> limit_of a <= Z.of_nat (List.length res).
Proof. unfold full. apply Z.geb_le. Qed.

Lemma full_false_iff (res : list Hit) :
  full a res = false <-> Z.of_nat (List.length res) < limit_of a.
Proof.
  unfold full. rewrite Z.geb_leb. apply Z.leb_gt.
Qed.

Lemma firstn_of_app {A : Type} (k : nat) (l l' : list A) :
  exists k', firstn k l = firstn k' (l ++ l').
Proof.
  exists (Nat.min k (List.length l)).
  rewrite firstn_app.
  replace (Nat.min k (List.length l) - List.length l)%nat with 0%nat by lia.
  cbn [firstn]. rewrite app_nil_r.
  destruct (Nat.le_ge_cases k (List.length l)) as [H|H].
  - now rewrite Nat.min_l.
  - rewrite Nat.min_r by exact H. now rewrite !firstn_all2 by lia.
Qed.

(** Each loop appends an initial segment of the hits it scans, the whole of
    them when it ends without the result being full, and stops at most one
    push after the result is full. *)
Lemma product_loop_segment cat sub ps res :
  let found := map (fun p => hit (cat, sub, p)) (filter (product_ok a) ps) in
  let out := product_loop a cat sub ps res in
  (exists k, out = res ++ firstn k found) /\
  (full a out = false -> out = res ++ found) /\
  Z.of_nat (List.length out) <= Z.max (Z.of_nat (List.length res) + 1) (limit_of a).
Proof.
  revert res. induction ps as [|p ps IH]; intros res; cbn zeta.
  - cbn. split; [|split].
    + exists 0%nat. cbn. now rewrite app_nil_r.
    + intros _. now rewrite app_nil_r.
    + lia.
  - cbn [product_loop filter].
    destruct (keyword_ok a p) eqn:Hk; cbn [negb].
    2:{ replace (product_ok a p) with false by (unfold product_ok; now rewrite Hk).
        apply IH. }
    destruct (below_min a p) eqn:Hmin.
    1:{ replace (product_ok a p) with false by (unfold product_ok; now rewrite Hk, Hmin).
        apply IH. }
    destruct (above_max a p) eqn:Hmax.
    1:{ replace (product_ok a p) with false
          by (unfold product_ok; now rewrite Hk, Hmin, Hmax).
        apply IH. }
    replace (product_ok a p) with true
      by (unfold product_ok; now rewrite Hk, Hmin, Hmax).
    cbn [map].
    set (h := hit (cat, sub, p)).
    change {| hit_product := p; hit_category_name := category_name cat;
              hit_subcategory_name := name sub |} with h.
    destruct (full a (res ++ [h])) eqn:Hfull.
    + repeat split.
      * exists 1%nat. reflexivity.
      * intros H. congruence.
      * rewrite length_app. cbn. lia.
    + destruct (IH (res ++ [h])) as [[k Hseg] [Hall Hcap]]. cbn zeta in *.
      apply full_false_iff in Hfull. rewrite length_app in Hfull, Hcap.
      cbn [List.length] in Hfull, Hcap.
      repeat split.
      * exists (S k). rewrite Hseg, <- app_assoc. reflexivity.
      * intros H. rewrite (Hall H), <- app_assoc. reflexivity.
      * lia.
Qed.

Lemma subcategory_loop_segment cat subs res :
  let found :=
    flat_map (fun sub => map (fun p => hit (cat, sub, p))
                             (filter (product_ok a) (products sub))) subs in
  let out := subcategory_loop a cat subs res in
  (exists k, out = res ++ firstn k found) /\
  (full a out = false -> out = res ++ found) /\
  Z.of_nat (List.length out) <= Z.max (Z.of_nat (List.length res) + 1) (limit_of a).
Proof.
  revert res. induction subs as [|sub subs IH]; intros res; cbn zeta.
  - cbn. split; [|split].
    + exists 0%nat. cbn. now rewrite app_nil_r.
    + intros _. now rewrite app_nil_r.
    + lia.
  - cbn [subcategory_loop flat_map].
    destruct (product_loop_segment cat sub (products sub) res) as [[k Hk] [Hall Hcap]].
    cbn zeta in *.
    destruct (full a (product_loop a cat sub (products sub) res)) eqn:Hfull.
    + repeat split.
      * destruct (firstn_of_app k
                    (map (fun p => hit (cat, sub, p)) (filter (product_ok a) (products sub)))
                    (flat_map (fun sub0 => map (fun p => hit (cat, sub0, p))
                                               (filter (product_ok a) (products sub0)))
                              subs)) as [k' Hk'].
        exists k'. now rewrite Hk, Hk'.
      * intros H. congruence.
      * exact Hcap.
    + rewrite (Hall eq_refl).
      destruct (IH (res ++ map (fun p => hit (cat, sub, p))
                                (filter (product_ok a) (products sub))))
        as [[k2 Hk2] [Hall2 Hcap2]]. cbn zeta in *.
      apply full_false_iff in Hfull. rewrite (Hall eq_refl) in Hfull.
      repeat split.
      * exists (List.length (map (fun p => hit (cat, sub, p))
                                 (filter (product_ok a) (products sub))) + k2)%nat.
        rewrite Hk2, <- app_assoc. f_equal. now rewrite firstn_app_2.
      * intros H. rewrite (Hall2 H). now rewrite <- app_assoc.
      * lia.
Qed.

Lemma category_loop_segment cats res :
  let found := map hit (filter (passes a) (catalog_order cats)) in
  let out := category_loop a cats res in
  (exists k, out = res ++ firstn k found) /\
  (full a out = false -> out = res ++ found) /\
  Z.of_nat (List.length out) <= Z.max (Z.of_nat (List.length res) + 1) (limit_of a).
Proof.
  revert res. induction cats as [|cat cats IH]; intros res; cbn zeta.
  - cbn. split; [|split].
    + exists 0%nat. cbn. now rewrite app_nil_r.
    + intros _. now rewrite app_nil_r.
    + lia.
  - change (catalog_order (cat :: cats))
      with (flat_map (fun sub => map (fun p => (cat, sub, p)) (products sub))
                     (subcategories cat) ++ catalog_order cats).
    rewrite filter_app, map_app, category_hits. cbn [category_loop].
    destruct (skip_category a cat); [apply IH|].
    destruct (subcategory_loop_segment cat (subcategories cat) res)
      as [[k Hk] [Hall Hcap]]. cbn zeta in *.
    set (here := flat_map _ (subcategories cat)) in *.
    destruct (full a (subcategory_loop a cat (subcategories cat) res)) eqn:Hfull.
    + repeat split.
      * destruct (firstn_of_app k here
                    (map hit (filter (passes a) (catalog_order cats)))) as [k' Hk'].
        exists k'. now rewrite Hk, Hk'.
      * intros H. congruence.
      * exact Hcap.
    + rewrite (Hall eq_refl).
      destruct (IH (res ++ here)) as [[k2 Hk2] [Hall2 Hcap2]]. cbn zeta in *.
      apply full_false_iff in Hfull. rewrite (Hall eq_refl) in Hfull.
      repeat split.
      * exists (List.length here + k2)%nat.
        rewrite Hk2, <- app_assoc. f_equal. now rewrite firstn_app_2.
      * intros H. rewrite (Hall2 H). now rewrite <- app_assoc.
      * lia.
Qed.

End SearchAnyLimit.

Lemma in_firstn {A : Type} (n : nat) (l : list A) (x : A) :
  In x (firstn n l) -> In x l.
Proof.
  intros H. rewrite <- (firstn_skipn n l). apply in_or_app. now left.
Qed.

Section SearchExtras.
Import Search SearchSpec Samples.




(** X3: whatever the lower-casing and the limit, every result is a product
    stored in the catalog, shown with its own fields and the names of the
    category and subcategory that hold it; the product's combined text
    contains the keyword, and its category's name contains a non-empty
    [category] argument, both lower-cased. *)
Theorem search_sound {L : Lowering} (c : Catalog) (a : Args) (v : View) :
  In v (results (searchProducts c a)) ->
  exists cat sub p,
    In cat c /\ In sub (subcategories cat) /\ In p (products sub) /\
    v = shown (cat, sub, p) /\
    occurs_ci (keyword a) (combined_text p) = true /\
    (forall cf, category a = Some cf -> cf <> EmptyString ->
                occurs_ci cf (category_name cat) = true).
Proof.
  destruct (category_loop_segment a c []) as [[k Hk] _]. cbn zeta in *.
  unfold searchProducts. cbn [results]. rewrite Hk. cbn [app].
  rewrite in_map_iff. intros [h [<- Hin]].
  apply in_firstn in Hin. apply in_map_iff in Hin. destruct Hin as [[[cat sub] p] [<- Hin]].
  apply filter_In in Hin. destruct Hin as [Hin Hpass].
  unfold catalog_order in Hin. apply in_flat_map in Hin. destruct Hin as [cat' [Hcat Hin]].
  apply in_flat_map in Hin. destruct Hin as [sub' [Hsub Hin]].
  apply in_map_iff in Hin. destruct Hin as [p' [Heq Hp]]. injection Heq as -> -> ->.
  cbn [passes] in Hpass. apply andb_true_iff in Hpass. destruct Hpass as [Hskip Hok].
  unfold product_ok in Hok. apply andb_true_iff in Hok. destruct Hok as [Hok _].
  apply andb_true_iff in Hok. destruct Hok as [Hkey _].
  exists cat, sub, p. repeat split; try assumption.
  intros cf Hcf Hne. unfold skip_category in Hskip. rewrite Hcf in Hskip.
  destruct cf as [|ch cf]; [contradiction|].
  cbn [truthy andb] in Hskip. now apply negb_true_iff, negb_false_iff in Hskip.
Qed.

Lemma search_sound_witness :
  exists cat sub p,
    In cat one_cpu /\ In sub (subcategories cat) /\ In p (products sub) /\
    shown (cpu, intel, i5) = shown (cat, sub, p).
Proof.
  destruct (search_sound (L := ascii_lowering) one_cpu
              (search_args "i5" (Some "cpu") None None None)
              (shown (cpu, intel, i5)))
    as [cat [sub [p [H1 [H2 [H3 [H4 _]]]]]]].
  - left. reflexivity.
  - exists cat, sub, p. repeat split; assumption.
Defined.

(** X4: whatever the limit, each result's price is at least a non-zero
    [min_price] and at most a non-zero [max_price]. *)
Theorem search_within_bounds {L : Lowering} (c : Catalog) (a : Args) (v : View) :
  In v (results (searchProducts c a)) ->
  (forall lo, min_price a = Some lo -> lo <> 0 -> lo <= v_price v) /\
  (forall hi, max_price a = Some hi -> hi <> 0 -> v_price v <= hi).
Proof. apply searchProducts_within_bounds. Qed.

Lemma search_within_bounds_witness :
  5000 <= v_price (shown (cpu, intel, i5)) /\ v_price (shown (cpu, intel, i5)) <= 7000.
Proof.
  destruct (search_within_bounds (L := ascii_lowering) one_cpu
              (search_args "i5" None (Some 5000) (Some 7000) None)
              (shown (cpu, intel, i5))) as [Hlo Hhi].
  - left. reflexivity.
  - split; [apply Hlo | apply Hhi]; (reflexivity || discriminate).
Defined.

(** X5: when no product of the catalog passes the guards, and so on the empty
    catalog, the search answers with no result and [total_found] zero,
    whatever the limit. *)
Theorem search_nothing_passes {L : Lowering} (c : Catalog) (a : Args) :
  (forall t, In t (catalog_order c) -> passes a t = false) ->
  searchProducts c a = {| total_found := 0; results := [] |}.
Proof.
  intros Hnone.
  destruct (category_loop_segment a c []) as [[k Hk] _]. cbn zeta in *.
  rewrite (filter_none _ _ Hnone) in Hk. cbn [map] in Hk. rewrite firstn_nil in Hk.
  unfold searchProducts. now rewrite Hk.
Qed.

Lemma search_nothing_passes_witness :
  searchProducts (L := ascii_lowering) one_cpu (search_args "ryzen" None None None (Some 0)) =
  {| total_found := 0; results := [] |}.
Proof.
  apply (search_nothing_passes (L := ascii_lowering)).
  intros t [<-|[]]. reflexivity.
Defined.

End SearchExtras.

Section SearchArguments.
Import Search SearchSpec Samples.

(** The loops read the argument bag only through the guards. *)
Lemma category_loop_guards {L : Lowering} (a b : Args) :
  (forall cat, skip_category a cat = skip_category b cat) ->
  (forall p, keyword_ok a p = keyword_ok b p) ->
  (forall p, below_min a p = below_min b p) ->
  (forall p, above_max a p = above_max b p) ->
  limit_of a = limit_of b ->
  forall cats res, category_loop a cats res = category_loop b cats res.
Proof.
  intros Hskip Hkey Hmin Hmax Hlim.
  assert (Hfull : forall res, full a res = full b res)
    by (intros res; unfold full; now rewrite Hlim).
  assert (Hp : forall cat sub ps res,
             product_loop a cat sub ps res = product_loop b cat sub ps res).
  { intros cat sub ps. induction ps as [|p ps IH]; intros res; cbn; [reflexivity|].
    rewrite Hkey, Hmin, Hmax, Hfull, !IH. reflexivity. }
  assert (Hs : forall cat subs res,
             subcategory_loop a cat subs res = subcategory_loop b cat subs res).
  { intros cat subs. induction subs as [|sub subs IH]; intros res; cbn; [reflexivity|].
    rewrite Hp, Hfull, IH. reflexivity. }
  intros cats. induction cats as [|cat cats IH]; intros res; cbn; [reflexivity|].
  rewrite Hskip, Hs, Hfull, !IH. reflexivity.
Qed.

(** X6: a falsy optional argument is the same as an omitted one: the empty
    string as [category], and the number zero as [min_price] or [max_price],
    give the answer of the call without that argument. *)
Theorem search_falsy_as_omitted {L : Lowering} (c : Catalog) (k : string)
    (cf : option string)
    (lo hi lim : option Z) :
  searchProducts c (search_args k (Some EmptyString) lo hi lim) =
    searchProducts c (search_args k None lo hi lim) /\
  searchProducts c (search_args k cf (Some 0) hi lim) =
    searchProducts c (search_args k cf None hi lim) /\
  searchProducts c (search_args k cf lo (Some 0) lim) =
    searchProducts c (search_args k cf lo None lim).
Proof.
  unfold searchProducts.
  repeat split;
    (erewrite category_loop_guards; [reflexivity | intros; reflexivity ..]).
Qed.

(** X7: lowering the limit keeps an initial segment: for limits
    [1 <= n <= m], the results under limit [n] are the first [n] results
    under limit [m]. *)
Theorem search_limit_prefix {L : Lowering} (c : Catalog) (k : string)
    (cf : option string)
    (lo hi : option Z) (n m : Z) :
  1 <= n -> n <= m ->
  results (searchProducts c (search_args k cf lo hi (Some n))) =
  firstn (Z.to_nat n) (results (searchProducts c (search_args k cf lo hi (Some m)))).
Proof.
  intros Hn Hm.
  rewrite !searchProducts_firstn by (cbn; lia).
  cbn [limit_of limit search_args].
  rewrite <- firstn_map, <- (firstn_map shown (Z.to_nat m)), firstn_firstn.
  rewrite Nat.min_l by lia.
  reflexivity.
Qed.

Lemma search_limit_prefix_witness :
  results (searchProducts (L := ascii_lowering) eleven_modules
                          (search_args "ram" None None None (Some 2))) =
  firstn 2 (results (searchProducts (L := ascii_lowering) eleven_modules
                                    (search_args "ram" None None None (Some 5)))).
Proof.
  apply (search_limit_prefix (L := ascii_lowering) eleven_modules
           "ram" None None None 2 5); lia.
Defined.

(** X8: under any lower-casing that keeps words apart, the keyword guard
    looks at the brand, the model, every spec and the raw text: a keyword
    that occurs in one of them, both lower-cased, passes the guard. *)
Theorem keyword_covers_fields {L : Lowering} (a : Args) (p : ProductSpec) :
  separates_words L ->
  occurs_ci (keyword a) (brand p) = true \/
  occurs_ci (keyword a) (model p) = true \/
  (exists s, In s (specs p) /\ occurs_ci (keyword a) s = true) \/
  occurs_ci (keyword a) (raw_text p) = true ->
  keyword_ok a p = true.
Proof.
  intros Hsep [H|[H|[[s [Hin H]]|H]]].
  - apply (keyword_in_piece a p (brand p) Hsep); [|exact H].
    apply piece_before, piece_whole.
  - apply (keyword_in_piece a p (model p) Hsep); [|exact H].
    apply piece_after, piece_before, piece_whole.
  - apply (keyword_in_piece a p s Hsep); [|exact H].
    do 2 apply piece_after. apply piece_before. now apply piece_of_concat.
  - apply (keyword_in_piece a p (raw_text p) Hsep); [|exact H].
    apply raw_text_is_piece.
Qed.

Lemma keyword_covers_fields_witness :
  keyword_ok (L := ascii_lowering) (search_args "ddr5" None None None None)
             {| index := "7"; group := None; brand := "Kingston"; model := "KF556";
                specs := ["16GB"; "DDR5 5600"; "CL40"]; price := 1500;
                original_price := None; discount_amount := None; markers := [];
                raw_text := "Kingston FURY" |} = true.
Proof.
  apply (keyword_covers_fields (L := ascii_lowering)); [exact ascii_separates_words|].
  right. right. left. exists "DDR5 5600". split; [cbn; auto | reflexivity].
Defined.

End SearchArguments.

(** ** [getProductByModel] and [listCategories]: further properties *)

Lemma in_catalog_order (c : Catalog) cat sub p :
  In (cat, sub, p) (catalog_order c) <->
  In cat c /\ In sub (subcategories cat) /\ In p (products sub).
Proof.
  unfold catalog_order. rewrite in_flat_map. split.
  - intros [cat' [Hcat Hin]]. apply in_flat_map in Hin. destruct Hin as [sub' [Hsub Hin]].
    apply in_map_iff in Hin. destruct Hin as [p' [Heq Hp]]. injection Heq as -> -> ->.
    auto.
  - intros [Hcat [Hsub Hp]]. exists cat. split; [exact Hcat|].
    apply in_flat_map. exists sub. split; [exact Hsub|]. now apply in_map.
Qed.

Section ByModelExtras.
Import ByModel Samples.

Lemma find_present {A : Type} (f : A -> bool) (l : list A) (x : A) :
  In x l -> f x = true -> exists y, find f l = Some y.
Proof.
  induction l as [|z l IH]; [intros []|]. cbn. intros [->|Hin] Hx.
  - rewrite Hx. now exists x.
  - destruct (f z); [now exists z | now apply IH].
Qed.

(** X9: whatever the lower-casing, a hit is a product stored in the catalog
    whose lower-cased model equals the lower-cased query, shown with its own
    fields, raw text included, and the names of the category and subcategory
    that hold it; and the lookup hits as soon as the catalog holds such a
    product. *)
Theorem model_found_iff {L : Lowering} (c : Catalog) (m : string) :
  (forall d, getProductByModel c m = Found d ->
     exists cat sub p,
       In cat c /\ In sub (subcategories cat) /\ In p (products sub) /\
       toLowerCase (model p) = toLowerCase m /\
       Found d = found_at (cat, sub, p)) /\
  ((exists cat sub p,
       In cat c /\ In sub (subcategories cat) /\ In p (products sub) /\
       toLowerCase (model p) = toLowerCase m) ->
   found (getProductByModel c m) = true).
Proof.
  rewrite getProductByModel_find. split.
  - intros d Hd. destruct (find (is_model m) (catalog_order c)) as [[[cat sub] p]|] eqn:Hfind;
      [|discriminate].
    apply find_some in Hfind. destruct Hfind as [Hin Hm].
    apply in_catalog_order in Hin. destruct Hin as [Hcat [Hsub Hp]].
    apply String.eqb_eq in Hm.
    exists cat, sub, p. repeat split; try assumption. now symmetry.
  - intros [cat [sub [p [Hcat [Hsub [Hp Hm]]]]]].
    destruct (find_present (is_model m) (catalog_order c) (cat, sub, p)) as [[[c' s'] p'] ->].
    + apply in_catalog_order. auto.
    + cbn. now apply String.eqb_eq.
    + reflexivity.
Qed.

Lemma model_found_iff_witness :
  found (getProductByModel (L := ascii_lowering) one_cpu "I5-13400") = true.
Proof.
  apply (model_found_iff (L := ascii_lowering) one_cpu "I5-13400").
  exists cpu, intel, i5. cbn. auto.
Defined.

(** X10: whatever the lower-casing, when a single product of the catalog has
    the model once both are lower-cased, the lookup answers with that
    product, shown with its own fields and the names of its category and
    subcategory. *)
Theorem model_unique_hit {L : Lowering} (c : Catalog) (m : string) cat sub p :
  In (cat, sub, p) (catalog_order c) ->
  toLowerCase (model p) = toLowerCase m ->
  (forall cat' sub' p',
     In (cat', sub', p') (catalog_order c) ->
     toLowerCase (model p') = toLowerCase m -> (cat', sub', p') = (cat, sub, p)) ->
  getProductByModel c m = found_at (cat, sub, p).
Proof.
  intros Hin Hm Huniq. rewrite getProductByModel_find.
  destruct (find_present (is_model m) (catalog_order c) (cat, sub, p) Hin)
    as [[[cat' sub'] p'] Hfind]; [cbn; now apply String.eqb_eq|].
  rewrite Hfind. apply find_some in Hfind. destruct Hfind as [Hin' Hm'].
  apply String.eqb_eq in Hm'. rewrite (Huniq cat' sub' p' Hin' Hm'). reflexivity.
Qed.

Lemma model_unique_hit_witness :
  getProductByModel (L := ascii_lowering) eleven_modules "RAM-C"
  = found_at (memory, modules, ram 2).
Proof.
  apply (model_unique_hit (L := ascii_lowering)).
  - vm_compute. tauto.
  - reflexivity.
  - intros cat' sub' p' Hin Hm.
    vm_compute in Hin.
    repeat (destruct Hin as [Hin|Hin];
            [injection Hin as <- <- <-;
             first [reflexivity | vm_compute in Hm; discriminate Hm]|]).
    destruct Hin.
Defined.

(** X11: whatever the lower-casing, two queries that are equal once
    lower-cased hit the same product, and miss together. *)
Theorem model_query_case {L : Lowering} (c : Catalog) (m m' : string) :
  toLowerCase m = toLowerCase m' ->
  (forall d, getProductByModel c m = Found d <-> getProductByModel c m' = Found d) /\
  found (getProductByModel c m) = found (getProductByModel c m').
Proof.
  intros Heq. rewrite !getProductByModel_find.
  assert (Hfind : find (is_model m) (catalog_order c) = find (is_model m') (catalog_order c)).
  { apply find_same_test. intros [[cat sub] p]. cbn. now rewrite Heq. }
  rewrite Hfind.
  destruct (find (is_model m') (catalog_order c)) as [[[cat sub] p]|]; cbn.
  - split; [tauto | reflexivity].
  - split; [|reflexivity]. intros d. split; discriminate.
Qed.

Lemma model_query_case_witness :
  found (getProductByModel (L := ascii_lowering) one_cpu "i5-13400")
  = found (getProductByModel (L := ascii_lowering) one_cpu "I5-13400").
Proof.
  apply (model_query_case (L := ascii_lowering) one_cpu "i5-13400" "I5-13400").
  reflexivity.
Defined.

End ByModelExtras.

Section CategoriesExtras.
Import Categories.

Lemma length_catalog_order (c : Catalog) :
  List.length (catalog_order c) = list_sum (map count_products c).
Proof.
  unfold catalog_order, count_products.
  induction c as [|cat c IH]; cbn; [reflexivity|].
  rewrite length_app, IH. f_equal.
  induction (subcategories cat) as [|sub subs IHs]; cbn; [reflexivity|].
  now rewrite length_app, length_map, IHs.
Qed.

(** X12: the index lists the categories in stored order, one entry per
    category with its id and its subcategories' names in stored order, and
    the product counts of all the entries add up to the number of products
    of the catalog. *)
Theorem listCategories_index (c : Catalog) :
  total_categories (listCategories c) = List.length c /\
  map ci_category_id (categories (listCategories c)) = map category_id c /\
  map (fun ci => map si_name (ci_subcategories ci)) (categories (listCategories c)) =
    map (fun cat => map name (subcategories cat)) c /\
  list_sum (flat_map (fun ci => map product_count (ci_subcategories ci))
                     (categories (listCategories c))) =
    List.length (catalog_order c).
Proof.
  unfold listCategories. cbn [total_categories categories].
  rewrite length_map, !map_map. cbn [ci_category_id ci_subcategories].
  repeat split.
  - apply map_ext. intros cat. now rewrite map_map.
  - rewrite length_catalog_order. unfold count_products.
    induction c as [|cat c IH]; cbn; [reflexivity|].
    rewrite list_sum_app, IH, map_map. reflexivity.
Qed.

End CategoriesExtras.

(** ** [getCategoryProducts]: the subcategory lookup and the slice *)

Section CategoryProductsExtras.
Import CategoryProducts Samples.





(** X14: whatever the lower-casing, for a stored category and a non-empty
    [subcategory_name] that equals no subcategory name of that category once
    both are lower-cased, the answer is
    [found: false] with a message that contains the queried name and the
    category's name. *)
Theorem subcategory_miss {L : Lowering} (c : Catalog) (a : Args)
    (cat : ProductCategory) (sn : string) :
  first_such (fun x => category_id x = arg_category_id a) c cat ->
  subcategory_name a = Some sn ->
  sn <> EmptyString ->
  (forall sub, In sub (subcategories cat) -> toLowerCase (name sub) <> toLowerCase sn) ->
  getCategoryProducts c a = NotFound (subcategory_not_found sn (category_name cat)) /\
  includes (subcategory_not_found sn (category_name cat)) sn = true /\
  includes (subcategory_not_found sn (category_name cat)) (category_name cat) = true.
Proof.
  intros Hfirst Hsn Hne Hnone. unfold getCategoryProducts.
  rewrite (find_first_such _ _ _ _ (fun y => String.eqb_eq _ _) Hfirst), Hsn.
  destruct sn as [|ch sn]; [contradiction|]. cbn [if_truthy truthy].
  rewrite find_absent by (intros sub Hin; apply String.eqb_neq; now apply Hnone).
  split; [reflexivity|]. unfold subcategory_not_found. split; apply includes_iff.
  - exists ("Subcategory " ++ dquote)%string,
           (dquote ++ " not found in category " ++ dquote ++ category_name cat ++ dquote)%string.
    now rewrite !append_assoc.
  - exists ("Subcategory " ++ dquote ++ String ch sn ++ dquote ++ " not found in category "
              ++ dquote)%string, dquote.
    now rewrite !append_assoc.
Qed.

Lemma subcategory_miss_witness :
  getCategoryProducts (L := ascii_lowering) one_cpu (category_args "C1" (Some "AMD") None) =
  NotFound (subcategory_not_found "AMD" "CPU").
Proof.
  apply (subcategory_miss (L := ascii_lowering) one_cpu
           (category_args "C1" (Some "AMD") None) cpu "AMD").
  - exists [], []. repeat split. intros y [].
  - reflexivity.
  - discriminate.
  - intros sub [<-|[]]. discriminate.
Defined.

(** X15: whatever the lower-casing, for a stored category and a non-empty
    [subcategory_name], the listing is that of the first subcategory whose
    name equals the queried one once both are lower-cased:
    [subcategory_filter] and every product's [subcategory] carry the stored
    spelling of the name, [total_products] is the subcategory's product
    count, and the products are its products in stored order, each with its
    own fields, cut by the limit. *)
Theorem subcategory_hit {L : Lowering} (c : Catalog) (a : Args) (cat : ProductCategory)
    (sub : Subcategory) (sn : string) :
  first_such (fun x => category_id x = arg_category_id a) c cat ->
  subcategory_name a = Some sn ->
  sn <> EmptyString ->
  first_such (fun s => toLowerCase (name s) = toLowerCase sn) (subcategories cat) sub ->
  exists l,
    getCategoryProducts c a = Listed l /\
    l_category_name l = category_name cat /\
    subcategory_filter l = Some (name sub) /\
    total_products l = List.length (products sub) /\
    l_products l =
      kept (match limit a with Some n => n | None => 20 end)
           (map (listed sub) (products sub)) /\
    (forall v, In v (l_products l) -> v_subcategory v = name sub).
Proof.
  intros Hfirst Hsn Hne Hsub. unfold getCategoryProducts.
  rewrite (find_first_such _ _ _ _ (fun y => String.eqb_eq _ _) Hfirst), Hsn.
  destruct sn as [|ch sn]; [contradiction|]. cbn [if_truthy truthy].
  rewrite (find_first_such _ _ _ _ (fun y => String.eqb_eq _ _) Hsub).
  eexists. split; [reflexivity|]. cbn.
  repeat split; [apply length_tag_all | now rewrite slice0_kept, kept_map, view_tag_all |].
  intros v Hv. apply in_map_iff in Hv. destruct Hv as [t [<- Ht]].
  unfold slice0 in Ht. apply in_firstn in Ht. unfold tag_all in Ht.
  apply in_map_iff in Ht. destruct Ht as [p [<- _]]. reflexivity.
Qed.

Lemma subcategory_hit_witness :
  exists l,
    getCategoryProducts (L := ascii_lowering) two_cases
      (category_args "C1" (Some "INTEL") None) = Listed l /\
    subcategory_filter l = Some "Intel" /\
    total_products l = 1%nat /\
    l_products l = [listed intel_upper i5].
Proof.
  destruct (subcategory_hit (L := ascii_lowering) two_cases
              (category_args "C1" (Some "INTEL") None)
              cpu_two_cases intel_upper "INTEL")
    as [l [Hl [_ [Hf [Ht [Hp _]]]]]].
  - exists [], []. repeat split. intros y [].
  - reflexivity.
  - discriminate.
  - exists [], [intel_lower]. repeat split. intros y [].
  - exists l. auto.
Defined.

End CategoryProductsExtras.

(** ** The advertised tools against the [switch] *)

Section ToolsExtras.
Import Tools.

(** X16: the call handler's [switch] accepts exactly the four names that the
    list handler advertises, which are pairwise distinct; for every other
    name it throws [Unknown tool: ] followed by the name. *)
Theorem advertised_tools_are_served (tool : string) :
  NoDup (map tool_name tools) /\
  (In tool (map tool_name tools) <-> exists m, switch tool = inr m) /\
  (~ In tool (map tool_name tools) -> switch tool = inl ("Unknown tool: " ++ tool)%string).
Proof.
  split; [|split].
  - cbn. repeat constructor; cbn; intuition discriminate.
  - split.
    + cbn. intros [<-|[<-|[<-|[<-|[]]]]]; eexists; reflexivity.
    + intros [m Hm]. unfold switch in Hm. cbn.
      destruct (String.eqb_spec tool "search_products"); [auto|].
      destruct (String.eqb_spec tool "get_product_by_model"); [auto|].
      destruct (String.eqb_spec tool "list_categories"); [auto|].
      destruct (String.eqb_spec tool "get_category_products"); [auto 6|].
      discriminate.
  - intros Hnot. unfold switch.
    destruct (String.eqb_spec tool "search_products");
      [subst; exfalso; apply Hnot; cbn; auto|].
    destruct (String.eqb_spec tool "get_product_by_model");
      [subst; exfalso; apply Hnot; cbn; auto|].
    destruct (String.eqb_spec tool "list_categories");
      [subst; exfalso; apply Hnot; cbn; auto|].
    destruct (String.eqb_spec tool "get_category_products");
      [subst; exfalso; apply Hnot; cbn; auto 6|].
    reflexivity.
Qed.

End ToolsExtras.
